(** * gold_price_server: the SQL safety gate, the query executor and the
      tool surface of [gold_price_server.py], as a shallow embedding.

    Python [str] values are modelled as [string]; a character is its code
    point, and the model covers the code points below 256 (Latin-1), where
    [str.lower] and [str.isspace] are one-character maps.  The SQLite driver
    and the file system are an explicit [runtime] oracle that is consulted
    with the history of the calls made so far; every operation returns its
    outcome together with the calls it made. *)

From Stdlib Require Import ZArith NArith Bool List String Ascii Lia.
From Stdlib Require Import DecimalString Sorted.
Import ListNotations.

Local Open Scope string_scope.
Local Open Scope Z_scope.

(** ** Python string primitives *)

Module PyStr.

(** [str.isspace] on one character: TAB..CR, FS..US, SPACE, NEL, NBSP. *)
Definition isspace (c : ascii) : bool :=
  let n := N_of_ascii c in
  ((9 <=? n) && (n <=? 13) || (28 <=? n) && (n <=? 32)
   || (n =? 133) || (n =? 160))%N.

(** [str.lower] on one character: A..Z, and the Latin-1 capitals
    U+00C0..U+00DE except the multiplication sign U+00D7. *)
Definition lower_char (c : ascii) : ascii :=
  let n := N_of_ascii c in
  if ((65 <=? n) && (n <=? 90)
      || (192 <=? n) && (n <=? 222) && negb (n =? 215))%N
  then ascii_of_N (n + 32) else c.

Fixpoint lower (s : string) : string :=
  match s with
  | EmptyString => EmptyString
  | String c t => String (lower_char c) (lower t)
  end.

Definition is_empty (s : string) : bool :=
  match s with EmptyString => true | String _ _ => false end.

(** Membership of a character in a set of characters given as a string. *)
Fixpoint char_in (c : ascii) (chars : string) : bool :=
  match chars with
  | EmptyString => false
  | String d t => Ascii.eqb c d || char_in c t
  end.

(** Drop the leading, respectively trailing, characters satisfying [p]. *)
Fixpoint lstrip_by (p : ascii -> bool) (s : string) : string :=
  match s with
  | EmptyString => EmptyString
  | String c t => if p c then lstrip_by p t else s
  end.

Fixpoint rstrip_by (p : ascii -> bool) (s : string) : string :=
  match s with
  | EmptyString => EmptyString
  | String c t =>
      let t' := rstrip_by p t in
      if is_empty t' && p c then EmptyString else String c t'
  end.

(** [s.lstrip()], [s.rstrip()], [s.strip()] and [s.rstrip(chars)]. *)
Definition lstrip (s : string) : string := lstrip_by isspace s.
Definition rstrip (s : string) : string := rstrip_by isspace s.
Definition strip (s : string) : string := rstrip (lstrip s).
Definition rstrip_chars (chars s : string) : string :=
  rstrip_by (fun c => char_in c chars) s.

(** [s.startswith(p)]. *)
Fixpoint startswith (s p : string) : bool :=
  match p, s with
  | EmptyString, _ => true
  | String _ _, EmptyString => false
  | String a p', String b s' => Ascii.eqb a b && startswith s' p'
  end.

(** [s.endswith(c)] for a single character [c]. *)
Fixpoint ends_with_char (c : ascii) (s : string) : bool :=
  match s with
  | EmptyString => false
  | String d EmptyString => Ascii.eqb d c
  | String _ t => ends_with_char c t
  end.

(** [needle in hay]: substring test. *)
Fixpoint contains (needle hay : string) : bool :=
  startswith hay needle
  || match hay with
     | EmptyString => false
     | String _ t => contains needle t
     end.

(** [str(n)] for an [int]. *)
Definition str_int (n : Z) : string := NilZero.string_of_int (Z.to_int n).

End PyStr.

Import PyStr.

(** ** The SQL safety gate *)

Definition forbidden_keywords : list string :=
  [ "insert"; "update"; "delete"; "drop"; "alter"; "create";
    "truncate"; "replace"; "pragma"; "attach"; "detach" ].

(** The condition of the semicolon test, on the normalised text. *)
Definition semicolon_check (sql_lower : string) : bool :=
  contains ";" sql_lower
  && negb (String.eqb (rstrip_chars ";" (rstrip sql_lower)) (rstrip sql_lower)).

(** [is_safe_sql(sql)] for a [str] argument (the [isinstance] guard is the
    argument's type here; [not sql] is the test for the empty string). *)
Definition is_safe_sql (sql : string) : bool :=
  if is_empty sql then false else
  let sql_lower := lower (strip sql) in
  if negb (startswith sql_lower "select") then false else
  if negb (contains "gold_price" sql_lower) then false else
  if semicolon_check sql_lower then false else
  if existsb (fun keyword => contains keyword sql_lower) forbidden_keywords
  then false
  else true.

(** ** Python values, driver rows and responses *)

(** The Python values that occur in rows and in the returned mappings.  A
    [float] is carried as its IEEE-754 bit pattern; no arithmetic is done on
    it.  A [dict] with string keys is an association list in insertion
    order. *)
#[warnings="-register-all"] Inductive pyval : Type :=
| PNone
| PBool (b : bool)
| PInt (n : Z)
| PFloat (bits : Z)
| PStr (s : string)
| PBytes (bs : list ascii)
| PList (l : list pyval)
| PDict (d : list (string * pyval)).

Definition pydict : Type := list (string * pyval).

(** [d.get(k)]. *)
Fixpoint dict_get (d : pydict) (k : string) : option pyval :=
  match d with
  | [] => None
  | (k', v) :: d' => if String.eqb k k' then Some v else dict_get d' k
  end.

(** [d[k] = v]: an existing key keeps its position. *)
Fixpoint dict_set (d : pydict) (k : string) (v : pyval) : pydict :=
  match d with
  | [] => [(k, v)]
  | (k', v') :: d' =>
      if String.eqb k k' then (k', v) :: d' else (k', v') :: dict_set d' k v
  end.

(** A [sqlite3.Row]: the column names of the cursor description paired with
    the values of the row, in column order. *)
Definition sqlite_row : Type := list (string * pyval).

Definition is_ascii (s : string) : bool :=
  forallb (fun c => (N_of_ascii c <? 128)%N) (list_ascii_of_string s).

Definition ascii_lower_char (c : ascii) : ascii :=
  let n := N_of_ascii c in
  if ((65 <=? n) && (n <=? 90))%N then ascii_of_N (n + 32) else c.

Fixpoint ascii_lower (s : string) : string :=
  match s with
  | EmptyString => EmptyString
  | String c t => String (ascii_lower_char c) (ascii_lower t)
  end.

(** The column-name comparison of [Row.__getitem__]: equal, or both ASCII
    and equal up to ASCII case. *)
Definition equal_ignore_case (a b : string) : bool :=
  String.eqb a b
  || (is_ascii a && is_ascii b && String.eqb (ascii_lower a) (ascii_lower b)).

(** [row[name]]: the first column whose name matches; [None] stands for the
    [IndexError] raised when there is none. *)
Fixpoint row_getitem (row : sqlite_row) (name : string) : option pyval :=
  match row with
  | [] => None
  | (col, v) :: row' =>
      if equal_ignore_case name col then Some v else row_getitem row' name
  end.

(** [dict(row)]: for every key of [row.keys()], in order, [d[k] = row[k]]. *)
Definition dict_of_row (row : sqlite_row) : pydict :=
  fold_left
    (fun d k => match row_getitem row k with
                | Some v => dict_set d k v
                | None => d
                end)
    (map fst row) [].

(** No column name of the row matches an earlier one under the comparison
    of [Row.__getitem__]. *)
Fixpoint distinct_columns (row : sqlite_row) : bool :=
  match row with
  | [] => true
  | (col, _) :: rest =>
      forallb (fun kv => negb (equal_ignore_case (fst kv) col)) rest
      && distinct_columns rest
  end.

(** ** Exceptions, driver calls and the runtime *)

Inductive exn : Type :=
| SqliteError (msg : string)      (* sqlite3.Error and its subclasses *)
| OtherException (msg : string).  (* any other Exception *)

Definition conn_id : Type := nat.

Inductive event : Type :=
| EvPathExists (path : string)
| EvConnect (path : string) (c : conn_id)
| EvConnectFailed (path : string)
| EvExecute (c : conn_id) (sql : string)
| EvCommit (c : conn_id)
| EvRollback (c : conn_id)
| EvClose (c : conn_id).

Definition history : Type := list event.

(** What the operating system, the SQLite driver and the interpreter answer,
    given the calls made so far (oldest first). *)
Record runtime : Type := {
  path_exists : history -> string -> bool;
  abspath : string -> string;
  connect : history -> string -> option exn;
  execute : history -> string -> exn + list sqlite_row;
  str_other : pyval -> string
}.

(** [str(v)]; the text of floats, bytes and containers is the runtime's. *)
Definition py_str (E : runtime) (v : pyval) : string :=
  match v with
  | PNone => "None"
  | PBool true => "True"
  | PBool false => "False"
  | PInt n => str_int n
  | PStr s => s
  | _ => str_other E v
  end.

Inductive outcome (A : Type) : Type :=
| Ret (a : A)
| Raise (e : exn).
Arguments Ret {A} a.
Arguments Raise {A} e.

(** A computation reads the history so far and yields its outcome and the
    calls it made. *)
Definition M (A : Type) : Type := history -> outcome A * list event.

Definition ret {A} (a : A) : M A := fun _ => (Ret a, []).
Definition raise {A} (e : exn) : M A := fun _ => (Raise e, []).

Definition bind {A B} (m : M A) (f : A -> M B) : M B :=
  fun h =>
    match m h with
    | (Ret a, t1) => let (o, t2) := f a (h ++ t1)%list in (o, (t1 ++ t2)%list)
    | (Raise e, t1) => (Raise e, t1)
    end.

(** The body of a [try]: an exception becomes a value. *)
Definition attempt {A} (m : M A) : M (A + exn) :=
  fun h =>
    match m h with
    | (Ret a, t) => (Ret (inl a), t)
    | (Raise e, t) => (Ret (inr e), t)
    end.

Notation "x <- m ;; k" := (bind m (fun x => k))
  (at level 61, m at next level, right associativity).
Notation "m ;;; k" := (bind m (fun _ => k))
  (at level 61, right associativity).

(** The connections a run of calls leaves open: opened and not closed. *)
Definition still_open (t : list event) : list conn_id :=
  fold_left
    (fun acc e =>
       match e with
       | EvConnect _ c => (acc ++ [c])%list
       | EvClose c => filter (fun c' => negb (Nat.eqb c' c)) acc
       | _ => acc
       end)
    t [].

(** A call that reaches the database file through the driver. *)
Definition is_driver_call (e : event) : bool :=
  match e with
  | EvPathExists _ => false
  | _ => true
  end.

(** ** The server *)

Definition SQLITE_DB_PATH : string := "/workspaces/MCP_Projects/gold_price.db".

Definition CATALOG_SQL : string :=
  "SELECT name FROM sqlite_master WHERE type='table' AND name='gold_price'".
Definition TABLE_INFO_SQL : string := "PRAGMA table_info(gold_price)".
Definition COUNT_SQL : string := "SELECT COUNT(*) as count FROM gold_price".
Definition SAMPLE_SQL : string :=
  "SELECT * FROM gold_price ORDER BY date DESC LIMIT 5".
Definition LATEST_SQL : string :=
  "SELECT * FROM gold_price ORDER BY date DESC LIMIT 1".

(** The f-string of [get_price_range]. *)
Definition range_sql (days : Z) : string :=
  "SELECT * FROM gold_price ORDER BY date DESC LIMIT " ++ str_int days.

Definition SETUP_MESSAGE : string :=
  "Database not found or invalid. Please run 'python create_sample_db.py' first.".
Definition REJECTION_MESSAGE : string :=
  "Only safe SELECT queries on the gold_price table are allowed.".
Definition DAYS_MESSAGE : string := "Days must be between 1 and 365".

Definition rejection_response : pydict := [("error", PStr REJECTION_MESSAGE)].
Definition days_response : pydict := [("error", PStr DAYS_MESSAGE)].

(** The two [except] clauses shared by the executor and [get_table_info]. *)
Definition error_response (e : exn) : pydict :=
  match e with
  | SqliteError msg => [("error", PStr ("SQLite error: " ++ msg))]
  | OtherException msg => [("error", PStr ("Unexpected error: " ++ msg))]
  end.

Definition success_response (result : list pydict) (sql : string) : pydict :=
  [ ("success", PBool true);
    ("data", PList (map PDict result));
    ("row_count", PInt (Z.of_nat (List.length result)));
    ("query", PStr sql) ].

Section Server.

Variable E : runtime.

(** *** Calls into the operating system and the driver *)

Definition os_path_exists (p : string) : M bool :=
  fun h => (Ret (path_exists E h p), [EvPathExists p]).

Definition sqlite3_connect (p : string) : M conn_id :=
  fun h =>
    match connect E h p with
    | None => (Ret (List.length h), [EvConnect p (List.length h)])
    | Some e => (Raise e, [EvConnectFailed p])
    end.

(** [conn.execute(sql)] together with the fetch that follows it in the
    same [try] block: all rows, or the exception. *)
Definition conn_execute (c : conn_id) (sql : string) : M (list sqlite_row) :=
  fun h =>
    match execute E h sql with
    | inr rows => (Ret rows, [EvExecute c sql])
    | inl e => (Raise e, [EvExecute c sql])
    end.

Definition conn_close (c : conn_id) : M unit :=
  fun _ => (Ret tt, [EvClose c]).

Definition emit (e : event) : M unit := fun _ => (Ret tt, [e]).

(** [with conn: body]: commit when the body completes, roll back and
    re-raise when it raises.  No statement that reaches the driver here
    opens a transaction, so neither can fail. *)
Definition with_conn {A} (c : conn_id) (body : M A) : M A :=
  r <- attempt body ;;
  match r with
  | inl a => emit (EvCommit c) ;;; ret a
  | inr e => emit (EvRollback c) ;;; raise e
  end.

(** [cursor.fetchone()[0]] and [cursor.fetchone()[name]]. *)
Definition fetchone_index0 (rows : list sqlite_row) : M pyval :=
  match rows with
  | [] => raise (OtherException "'NoneType' object is not subscriptable")
  | [] :: _ => raise (OtherException "tuple index out of range")
  | ((_, v) :: _) :: _ => ret v
  end.

Definition fetchone_named (rows : list sqlite_row) (name : string) : M pyval :=
  match rows with
  | [] => raise (OtherException "'NoneType' object is not subscriptable")
  | row :: _ =>
      match row_getitem row name with
      | Some v => ret v
      | None => raise (OtherException "No item with that key")
      end
  end.

Definition missing_db_response : pydict :=
  [ ("error", PStr SETUP_MESSAGE);
    ("database_path", PStr (abspath E SQLITE_DB_PATH)) ].

(** *** [check_database_exists] *)
Definition check_database_exists : M bool :=
  present <- os_path_exists SQLITE_DB_PATH ;;
  if negb present then ret false else
  r <- attempt
         (conn <- sqlite3_connect SQLITE_DB_PATH ;;
          rows <- conn_execute conn CATALOG_SQL ;;
          let table_exists :=
            match rows with [] => false | _ :: _ => true end in
          conn_close conn ;;;
          ret table_exists) ;;
  match r with
  | inl table_exists => ret table_exists
  | inr (SqliteError _) => ret false
  | inr e => raise e
  end.

(** *** [execute_sql_query] *)
Definition execute_sql_query (sql : string) : M pydict :=
  ok <- check_database_exists ;;
  if negb ok then ret missing_db_response else
  if negb (is_safe_sql sql) then ret rejection_response else
  opened <- attempt (sqlite3_connect SQLITE_DB_PATH) ;;
  match opened with
  | inr e => ret (error_response e)   (* [conn] is not in [locals()] *)
  | inl conn =>
      r <- attempt
             (with_conn conn
                (rows <- conn_execute conn sql ;;
                 let result := map dict_of_row rows in
                 ret (success_response result sql))) ;;
      conn_close conn ;;;             (* [finally] *)
      ret (match r with
           | inl response => response
           | inr e => error_response e
           end)
  end.

(** *** The tools *)
Definition run_query (sql : string) : M pydict := execute_sql_query sql.

Definition get_table_info : M pydict :=
  ok <- check_database_exists ;;
  if negb ok then ret missing_db_response else
  opened <- attempt (sqlite3_connect SQLITE_DB_PATH) ;;
  match opened with
  | inr e => ret (error_response e)
  | inl conn =>
      r <- attempt
             (with_conn conn
                (info <- conn_execute conn TABLE_INFO_SQL ;;
                 let columns := map dict_of_row info in
                 counted <- conn_execute conn COUNT_SQL ;;
                 row_count <- fetchone_named counted "count" ;;
                 ret [ ("success", PBool true);
                       ("table_name", PStr "gold_price");
                       ("columns", PList (map PDict columns));
                       ("row_count", row_count);
                       ("database_path", PStr (abspath E SQLITE_DB_PATH)) ])) ;;
      conn_close conn ;;;
      ret (match r with
           | inl response => response
           | inr e => error_response e
           end)
  end.

Definition sample_data : M pydict := execute_sql_query SAMPLE_SQL.

Definition get_latest_price : M pydict := execute_sql_query LATEST_SQL.

Definition get_price_range (days : Z) : M pydict :=
  if (days <? 1) || (days >? 365) then ret days_response
  else execute_sql_query (range_sql days).

Definition database_status : M pydict :=
  let db_path := abspath E SQLITE_DB_PATH in
  present <- os_path_exists SQLITE_DB_PATH ;;
  if negb present then
    ret [ ("status", PStr "missing");
          ("message", PStr "Database file does not exist");
          ("database_path", PStr db_path);
          ("setup_instructions",
           PStr "Run 'python create_sample_db.py' to create the database with sample data") ]
  else
  ok <- check_database_exists ;;
  if negb ok then
    ret [ ("status", PStr "invalid");
          ("message", PStr "Database exists but gold_price table is missing");
          ("database_path", PStr db_path);
          ("setup_instructions",
           PStr "Run 'python create_sample_db.py' to recreate the database") ]
  else
  r <- attempt
         (conn <- sqlite3_connect SQLITE_DB_PATH ;;
          rows <- conn_execute conn COUNT_SQL ;;
          row_count <- fetchone_index0 rows ;;
          conn_close conn ;;;
          ret [ ("status", PStr "ready");
                ("message",
                 PStr ("Database is ready with " ++ py_str E row_count
                       ++ " records"));
                ("database_path", PStr db_path);
                ("record_count", row_count) ]) ;;
  match r with
  | inl response => ret response
  | inr (SqliteError msg) =>
      ret [ ("status", PStr "error");
            ("message", PStr ("Database error: " ++ msg));
            ("database_path", PStr db_path) ]
  | inr e => raise e
  end.

End Server.

(** ** Sample runtimes *)

Definition gold_row (date : string) (price : Z) : sqlite_row :=
  [("date", PStr date); ("price", PInt price)].

Definition sample_rows : list sqlite_row :=
  [ gold_row "2024-01-03" 2043; gold_row "2024-01-02" 2058;
    gold_row "2024-01-01" 2063 ].

(** Two records compared through the value each holds under [date]. *)
Definition by_date {A : Type} (date_of : A -> option pyval)
    (R : pyval -> pyval -> Prop) (a b : A) : Prop :=
  match date_of a, date_of b with
  | Some x, Some y => R x y
  | _, _ => False
  end.

(** [DESC] on text dates: the first is not the smaller one. *)
Definition text_not_older (x y : pyval) : Prop :=
  match x, y with
  | PStr a, PStr b => String.leb b a = true
  | _, _ => False
  end.

(** No database file at the configured path. *)
Definition rt_missing : runtime :=
  {| path_exists := fun _ _ => false;
     abspath := fun p => p;
     connect := fun _ _ => Some (SqliteError "unable to open database file");
     execute := fun _ _ => inl (SqliteError "unable to open database file");
     str_other := fun _ => "" |}.

(** A database holding [sample_rows]; every other statement is refused. *)
Definition rt_ready : runtime :=
  {| path_exists := fun _ _ => true;
     abspath := fun p => p;
     connect := fun _ _ => None;
     execute := fun _ sql =>
       if String.eqb sql CATALOG_SQL then inr [[("name", PStr "gold_price")]]
       else if String.eqb sql COUNT_SQL then inr [[("count", PInt 3)]]
       else if String.eqb sql (range_sql 7) then inr sample_rows
       else if String.eqb sql "select * from gold_price" then inr sample_rows
       else inl (SqliteError "not supported");
     str_other := fun _ => "" |}.

(** The file exists but is not an SQLite database: the connection opens and
    the first statement fails. *)
Definition rt_not_a_database : runtime :=
  {| path_exists := fun _ _ => true;
     abspath := fun p => p;
     connect := fun _ _ => None;
     execute := fun _ _ => inl (SqliteError "file is not a database");
     str_other := fun _ => "" |}.

(** The table exists, and the database is locked when rows are counted. *)
Definition rt_locked : runtime :=
  {| path_exists := fun _ _ => true;
     abspath := fun p => p;
     connect := fun _ _ => None;
     execute := fun _ sql =>
       if String.eqb sql CATALOG_SQL then inr [[("name", PStr "gold_price")]]
       else inl (SqliteError "database is locked");
     str_other := fun _ => "" |}.

(** The catalogue lookup is interrupted by a fault that is not a driver
    error. *)
Definition rt_fault : runtime :=
  {| path_exists := fun _ _ => true;
     abspath := fun p => p;
     connect := fun _ _ => None;
     execute := fun _ _ => inl (OtherException "out of memory");
     str_other := fun _ => "" |}.

(** The file exists and no connection can be opened. *)
Definition rt_cannot_open : runtime :=
  {| path_exists := fun _ _ => true;
     abspath := fun p => p;
     connect := fun _ _ => Some (SqliteError "unable to open database file");
     execute := fun _ _ => inl (SqliteError "unable to open database file");
     str_other := fun _ => "" |}.

(** A database file without the [gold_price] table. *)
Definition rt_no_table : runtime :=
  {| path_exists := fun _ _ => true;
     abspath := fun p => p;
     connect := fun _ _ => None;
     execute := fun _ sql =>
       if String.eqb sql CATALOG_SQL then inr []
       else inl (SqliteError "no such table: gold_price");
     str_other := fun _ => "" |}.

(** One row of [PRAGMA table_info]. *)
Definition column_info (cid : Z) (name type : string) : sqlite_row :=
  [ ("cid", PInt cid); ("name", PStr name); ("type", PStr type);
    ("notnull", PInt 0); ("dflt_value", PNone); ("pk", PInt 0) ].

(** A database with the table, its schema and three rows. *)
Definition rt_schema : runtime :=
  {| path_exists := fun _ _ => true;
     abspath := fun p => p;
     connect := fun _ _ => None;
     execute := fun _ sql =>
       if String.eqb sql CATALOG_SQL then inr [[("name", PStr "gold_price")]]
       else if String.eqb sql TABLE_INFO_SQL
       then inr [column_info 0 "date" "TEXT"; column_info 1 "price" "REAL"]
       else if String.eqb sql COUNT_SQL then inr [[("count", PInt 3)]]
       else inl (SqliteError "not supported");
     str_other := fun _ => "" |}.

(** The file is there at the first probe and gone at every later one. *)
Definition rt_vanishing : runtime :=
  {| path_exists := fun h _ => match h with [] => true | _ :: _ => false end;
     abspath := fun p => p;
     connect := fun _ _ => None;
     execute := fun _ _ => inl (SqliteError "unable to open database file");
     str_other := fun _ => "" |}.

(** A small database: the table is a list of rows, and the driver answers
    the catalogue lookup, the count and [ORDER BY date DESC LIMIT n]. *)
Definition row_date_text (row : sqlite_row) : string :=
  match row_getitem row "date" with
  | Some (PStr s) => s
  | _ => EmptyString
  end.

Fixpoint insert_by_date_desc (row : sqlite_row) (sorted : list sqlite_row)
  : list sqlite_row :=
  match sorted with
  | [] => [row]
  | r :: rest =>
      if String.leb (row_date_text r) (row_date_text row)
      then row :: sorted
      else r :: insert_by_date_desc row rest
  end.

Definition order_by_date_desc (table : list sqlite_row) : list sqlite_row :=
  fold_right insert_by_date_desc [] table.

Definition limit_of (sql : string) : option nat :=
  find (fun n => String.eqb sql (range_sql (Z.of_nat n))) (seq 1 365).

Definition rt_table (table : list sqlite_row) : runtime :=
  {| path_exists := fun _ _ => true;
     abspath := fun p => p;
     connect := fun _ _ => None;
     execute := fun _ sql =>
       if String.eqb sql CATALOG_SQL then inr [[("name", PStr "gold_price")]]
       else if String.eqb sql COUNT_SQL
       then inr [[("count", PInt (Z.of_nat (List.length table)))]]
       else match limit_of sql with
            | Some n => inr (firstn n (order_by_date_desc table))
            | None => inl (SqliteError "not supported")
            end;
     str_other := fun _ => "" |}.

(** Nine daily prices, in insertion order. *)
Definition price_table : list sqlite_row :=
  [ gold_row "2024-01-04" 2041; gold_row "2024-01-01" 2063;
    gold_row "2024-01-09" 2030; gold_row "2024-01-02" 2058;
    gold_row "2024-01-07" 2028; gold_row "2024-01-03" 2043;
    gold_row "2024-01-08" 2033; gold_row "2024-01-05" 2045;
    gold_row "2024-01-06" 2046 ].

(** ** Facts about the string primitives *)

Lemma isspace_lower_char (c : ascii) : isspace (lower_char c) = isspace c.
Proof. destruct c as [[] [] [] [] [] [] [] []]; reflexivity. Qed.

Lemma is_empty_lower (s : string) : is_empty (lower s) = is_empty s.
Proof. destruct s; reflexivity. Qed.

Lemma lower_rstrip (s : string) : lower (rstrip s) = rstrip (lower s).
Proof.
  unfold rstrip. induction s as [|c t IH]; simpl; [reflexivity|].
  rewrite <- IH, is_empty_lower, isspace_lower_char.
  destruct (is_empty (rstrip_by isspace t) && isspace c); reflexivity.
Qed.

Lemma rstrip_by_idempotent (p : ascii -> bool) (s : string) :
  rstrip_by p (rstrip_by p s) = rstrip_by p s.
Proof.
  induction s as [|c t IH]; simpl; [reflexivity|].
  destruct (is_empty (rstrip_by p t)) eqn:He; simpl.
  - destruct (p c) eqn:Hp; simpl; [reflexivity|].
    rewrite IH, He, Hp. reflexivity.
  - rewrite IH, He. reflexivity.
Qed.

(** The normalised text has no trailing whitespace left to strip. *)
Lemma rstrip_normalised (sql : string) :
  rstrip (lower (strip sql)) = lower (strip sql).
Proof.
  unfold strip. rewrite lower_rstrip. apply rstrip_by_idempotent.
Qed.

Lemma rstrip_semicolons_fixed (x : string) :
  String.eqb (rstrip_chars ";" x) x = negb (ends_with_char ";" x).
Proof.
  unfold rstrip_chars. induction x as [|c t IH]; [reflexivity|].
  change (rstrip_by (fun a => char_in a ";") (String c t))
    with (if is_empty (rstrip_by (fun a => char_in a ";") t) && char_in c ";"
          then EmptyString
          else String c (rstrip_by (fun a => char_in a ";") t)).
  remember (rstrip_by (fun a => char_in a ";") t) as t' eqn:Ht'.
  destruct t as [|d u].
  - subst t'. simpl. rewrite orb_false_r.
    destruct (Ascii.eqb c ";"); simpl; [reflexivity|].
    rewrite Ascii.eqb_refl. reflexivity.
  - change (ends_with_char ";" (String c (String d u)))
      with (ends_with_char ";" (String d u)).
    destruct (ends_with_char ";" (String d u)); simpl negb in *.
    + destruct (is_empty t' && char_in c ";"); [reflexivity|].
      change (Ascii.eqb c c && String.eqb t' (String d u) = false).
      rewrite IH. apply andb_false_r.
    + apply String.eqb_eq in IH. rewrite IH.
      change (Ascii.eqb c c && String.eqb (String d u) (String d u) = true).
      rewrite Ascii.eqb_refl, String.eqb_refl. reflexivity.
Qed.

Lemma ends_with_contains (c : ascii) (x : string) :
  ends_with_char c x = true -> contains (String c EmptyString) x = true.
Proof.
  induction x as [|d t IH]; simpl; [discriminate|].
  destruct t as [|e u].
  - intros H. rewrite Ascii.eqb_sym, H. reflexivity.
  - intros H. rewrite (IH H). apply orb_true_r.
Qed.

(** What the semicolon test of [is_safe_sql] computes: on the normalised text it
    fires exactly when that text ends with a semicolon. *)
Lemma semicolon_check_normalised (sql : string) :
  semicolon_check (lower (strip sql))
  = ends_with_char ";" (lower (strip sql)).
Proof.
  unfold semicolon_check. rewrite rstrip_normalised, rstrip_semicolons_fixed.
  rewrite negb_involutive.
  destruct (ends_with_char ";" (lower (strip sql))) eqn:He.
  - rewrite (ends_with_contains _ _ He). reflexivity.
  - apply andb_false_r.
Qed.

(** [is_safe_sql] accepts exactly when all five tests pass. *)
Lemma is_safe_sql_true_iff (sql : string) :
  is_safe_sql sql = true <->
  is_empty sql = false
  /\ startswith (lower (strip sql)) "select" = true
  /\ contains "gold_price" (lower (strip sql)) = true
  /\ semicolon_check (lower (strip sql)) = false
  /\ existsb (fun keyword => contains keyword (lower (strip sql)))
       forbidden_keywords = false.
Proof.
  unfold is_safe_sql.
  destruct (is_empty sql); [intuition discriminate|].
  destruct (startswith (lower (strip sql)) "select"); simpl negb; cbv iota;
    [|intuition discriminate].
  destruct (contains "gold_price" (lower (strip sql))); simpl negb; cbv iota;
    [|intuition discriminate].
  destruct (semicolon_check (lower (strip sql))); [intuition discriminate|].
  destruct (existsb _ forbidden_keywords); intuition discriminate.
Qed.

(** ** Properties of [is_safe_sql] *)

(** C1 (the code departs from the claim).  [is_safe_sql] accepts the stacked
    two-statement text, whose semicolon is followed by further content, and
    rejects the same query with a single trailing semicolon, with or without
    whitespace after it: on the normalised text the semicolon test fires
    exactly when that text ends with a semicolon. *)
Theorem is_safe_sql_semicolon_reversed :
  is_safe_sql "select * from gold_price; select * from gold_price" = true
  /\ is_safe_sql "select * from gold_price;" = false
  /\ is_safe_sql "select * from gold_price;  " = false
  /\ is_safe_sql "select * from gold_price" = true
  /\ (forall sql : string,
        semicolon_check (lower (strip sql))
        = ends_with_char ";" (lower (strip sql))).
Proof.
  split; [vm_compute; reflexivity|].
  split; [vm_compute; reflexivity|].
  split; [vm_compute; reflexivity|].
  split; [vm_compute; reflexivity|].
  exact semicolon_check_normalised.
Qed.

(** C2.  A text whose trimmed, lower-cased form contains one of the eleven
    forbidden keywords anywhere is rejected, whatever else it contains. *)
Theorem is_safe_sql_rejects_forbidden_keyword (sql keyword : string) :
  In keyword [ "insert"; "update"; "delete"; "drop"; "alter"; "create";
               "truncate"; "replace"; "pragma"; "attach"; "detach" ] ->
  contains keyword (lower (strip sql)) = true ->
  is_safe_sql sql = false.
Proof.
  intros Hin Hsub.
  destruct (is_safe_sql sql) eqn:Hsafe; [|reflexivity].
  apply is_safe_sql_true_iff in Hsafe.
  destruct Hsafe as (_ & _ & _ & _ & Hnone).
  assert (Hex : existsb (fun k => contains k (lower (strip sql)))
                  forbidden_keywords = true).
  { apply existsb_exists. exists keyword. split; assumption. }
  rewrite Hex in Hnone. discriminate.
Qed.

Lemma is_safe_sql_rejects_forbidden_keyword_witness :
  is_safe_sql "SELECT * FROM gold_price WHERE note = 'Drop'" = false.
Proof.
  apply (is_safe_sql_rejects_forbidden_keyword _ "drop").
  - simpl. tauto.
  - vm_compute. reflexivity.
Defined.

(** C3.  The empty string is rejected, and so is every text whose trimmed,
    lower-cased form does not start with [select]. *)
Theorem is_safe_sql_rejects_non_select (sql : string) :
  sql = "" \/ startswith (lower (strip sql)) "select" = false ->
  is_safe_sql sql = false.
Proof.
  intros [-> | Hstart]; [reflexivity|].
  unfold is_safe_sql. rewrite Hstart.
  destruct (is_empty sql); reflexivity.
Qed.

Lemma is_safe_sql_rejects_non_select_witness :
  is_safe_sql "" = false /\ is_safe_sql "  Drop table gold_price" = false.
Proof.
  split.
  - apply is_safe_sql_rejects_non_select. left. reflexivity.
  - apply is_safe_sql_rejects_non_select. right. vm_compute. reflexivity.
Defined.

(** C4.  A text whose trimmed, lower-cased form lacks the substring
    [gold_price] is rejected; the test is on substrings, so a longer
    identifier containing it passes; the canonical query is accepted. *)
Theorem is_safe_sql_requires_gold_price :
  (forall sql : string,
      contains "gold_price" (lower (strip sql)) = false ->
      is_safe_sql sql = false)
  /\ is_safe_sql "select * from other_table" = false
  /\ is_safe_sql "select * from gold_price" = true
  /\ is_safe_sql "select * from old_gold_prices_2019" = true.
Proof.
  split; [|repeat split; vm_compute; reflexivity].
  intros sql Hno. unfold is_safe_sql. rewrite Hno.
  destruct (is_empty sql); [reflexivity|].
  destruct (startswith (lower (strip sql)) "select"); reflexivity.
Qed.

Lemma is_safe_sql_requires_gold_price_witness :
  is_safe_sql "SELECT price FROM silver" = false.
Proof.
  apply (proj1 is_safe_sql_requires_gold_price).
  vm_compute. reflexivity.
Defined.

(** Every query text built by [get_price_range] for an admissible [days]
    is accepted by [is_safe_sql]: all 365 texts are checked. *)
Lemma range_sql_safe (days : Z) :
  1 <= days <= 365 -> is_safe_sql (range_sql days) = true.
Proof.
  intros Hdays.
  assert (Hall : forallb (fun n => is_safe_sql (range_sql (Z.of_nat n)))
                   (seq 1 365) = true) by (vm_compute; reflexivity).
  rewrite forallb_forall in Hall.
  rewrite <- (Z2Nat.id days) by lia.
  apply Hall. apply in_seq. lia.
Qed.

(** ** Running the operations *)

Lemma bind_ret {A B} (m : M A) (f : A -> M B) (h : history) a t :
  m h = (Ret a, t) ->
  bind m f h = (let (o, t2) := f a (h ++ t)%list in (o, (t ++ t2)%list)).
Proof. intros H. unfold bind. rewrite H. reflexivity. Qed.

Lemma bind_raise {A B} (m : M A) (f : A -> M B) (h : history) e t :
  m h = (Raise e, t) -> bind m f h = (Raise e, t).
Proof. intros H. unfold bind. rewrite H. reflexivity. Qed.

Ltac run_step :=
  match goal with
  | |- context [path_exists ?E ?h ?p] => destruct (path_exists E h p) eqn:?
  | |- context [connect ?E ?h ?p] => destruct (connect E h p) eqn:?
  | |- context [execute ?E ?h ?q] => destruct (execute E h q) as [?|[|? ?]] eqn:?
  | e : exn |- _ => destruct e
  end.

Ltac unfold_ops :=
  unfold run_query, sample_data, get_latest_price, get_price_range,
    get_table_info, database_status, execute_sql_query,
    check_database_exists, with_conn, fetchone_index0, fetchone_named,
    os_path_exists, sqlite3_connect, conn_execute, conn_close, emit,
    attempt, bind, ret, raise.

(** The existence check either answers or lets a non-driver exception
    through; the only statement it runs is the catalogue lookup. *)
Lemma check_database_exists_statements (E : runtime) (h : history) c sql :
  In (EvExecute c sql) (snd (check_database_exists E h)) -> sql = CATALOG_SQL.
Proof.
  unfold_ops. repeat (run_step; cbn [negb snd fst app]); cbn;
    intuition (try discriminate; try congruence).
Qed.

Lemma check_database_exists_missing (E : runtime) (h : history) :
  path_exists E h SQLITE_DB_PATH = false ->
  check_database_exists E h = (Ret false, [EvPathExists SQLITE_DB_PATH]).
Proof. intros H. unfold_ops. rewrite H. reflexivity. Qed.

(** A successful response of the executor carries the rows the driver
    returned for exactly the submitted text. *)
Lemma execute_sql_query_success (E : runtime) (sql : string) (h : history) d t :
  execute_sql_query E sql h = (Ret d, t) ->
  dict_get d "success" = Some (PBool true) ->
  exists h' rows,
    execute E h' sql = inr rows
    /\ d = success_response (map dict_of_row rows) sql.
Proof.
  unfold_ops. destruct (is_safe_sql sql).
  - repeat (run_step; cbn [negb snd fst app]); cbn;
      intros Heq Hs; inversion Heq; subst; cbn in Hs; try discriminate;
      eexists; eexists; (split; [eassumption|reflexivity]).
  - repeat (run_step; cbn [negb snd fst app]); cbn;
      intros Heq Hs; inversion Heq; subst; cbn in Hs; discriminate.
Qed.

(** The executor never answers an accepted text with the rejection. *)
Lemma execute_sql_query_not_rejected (E : runtime) (sql : string) (h : history) :
  is_safe_sql sql = true ->
  fst (execute_sql_query E sql h) <> Ret rejection_response.
Proof.
  intros Hsafe. unfold_ops. rewrite Hsafe.
  repeat (run_step; cbn [negb snd fst app]); cbn; discriminate.
Qed.

(** Inside the admissible range the guard of [get_price_range] falls
    through to the executor. *)
Lemma get_price_range_in_range (E : runtime) (days : Z) (h : history) :
  1 <= days <= 365 ->
  get_price_range E days h = execute_sql_query E (range_sql days) h.
Proof.
  intros Hd. unfold get_price_range.
  replace (days <? 1) with false by (symmetry; apply Z.ltb_ge; lia).
  replace (days >? 365) with false
    by (symmetry; rewrite Z.gtb_ltb; apply Z.ltb_ge; lia).
  reflexivity.
Qed.

(** ** Rows turned into mappings *)

Lemma equal_ignore_case_refl (a : string) : equal_ignore_case a a = true.
Proof. unfold equal_ignore_case. rewrite String.eqb_refl. reflexivity. Qed.

Lemma dict_get_set_same (d : pydict) (k : string) (v : pyval) :
  dict_get (dict_set d k v) k = Some v.
Proof.
  induction d as [|[k0 v0] d IH]; simpl.
  - rewrite String.eqb_refl. reflexivity.
  - destruct (String.eqb k k0) eqn:Hk; simpl; rewrite Hk; [reflexivity|exact IH].
Qed.

Lemma dict_get_set_other (d : pydict) (k k' : string) (v : pyval) :
  k' <> k -> dict_get (dict_set d k v) k' = dict_get d k'.
Proof.
  intros Hne. induction d as [|[k0 v0] d IH]; simpl.
  - apply String.eqb_neq in Hne. rewrite Hne. reflexivity.
  - destruct (String.eqb k k0) eqn:Hk; simpl.
    + apply String.eqb_eq in Hk. subst k0.
      apply String.eqb_neq in Hne. rewrite Hne. reflexivity.
    + rewrite IH. reflexivity.
Qed.

Lemma row_getitem_column (row : sqlite_row) (k : string) :
  In k (map fst row) -> exists v, row_getitem row k = Some v.
Proof.
  induction row as [|[col v] row IH]; simpl; [intros []|].
  intros [Hk | Hin].
  - subst col. rewrite equal_ignore_case_refl. eexists. reflexivity.
  - destruct (equal_ignore_case k col); [eexists; reflexivity|exact (IH Hin)].
Qed.

Lemma dict_of_row_fold_get (row : sqlite_row) (ks : list string) (d : pydict)
    (k : string) (v : pyval) :
  row_getitem row k = Some v ->
  In k ks \/ dict_get d k = Some v ->
  dict_get
    (fold_left
       (fun d k => match row_getitem row k with
                   | Some v => dict_set d k v
                   | None => d
                   end)
       ks d) k
  = Some v.
Proof.
  intros Hget. revert d. induction ks as [|k0 ks IH]; intros d Hor; simpl.
  - destruct Hor as [[] | Hd]. exact Hd.
  - apply IH. destruct (String.eqb_spec k0 k) as [-> | Hne].
    + right. rewrite Hget. apply dict_get_set_same.
    + destruct Hor as [[Heq | Hin] | Hd].
      * contradiction.
      * left. exact Hin.
      * right. destruct (row_getitem row k0).
        -- rewrite dict_get_set_other by congruence. exact Hd.
        -- exact Hd.
Qed.

(** The mapping made from a row holds, under each column name, what the row
    itself gives for that name. *)
Lemma dict_get_dict_of_row (row : sqlite_row) (k : string) :
  In k (map fst row) -> dict_get (dict_of_row row) k = row_getitem row k.
Proof.
  intros Hin. destruct (row_getitem_column row k Hin) as [v Hv].
  rewrite Hv. unfold dict_of_row.
  apply dict_of_row_fold_get; [exact Hv | left; exact Hin].
Qed.

Lemma StronglySorted_map {A B} (P : A -> A -> Prop) (Q : B -> B -> Prop)
    (f : A -> B) (l : list A) :
  (forall a b, In a l -> In b l -> P a b -> Q (f a) (f b)) ->
  StronglySorted P l -> StronglySorted Q (map f l).
Proof.
  intros Hpq Hs. induction Hs as [|a l Hs IH Hall]; simpl; constructor.
  - apply IH. intros x y Hx Hy. apply Hpq; right; assumption.
  - apply Forall_forall. intros y Hy. apply in_map_iff in Hy.
    destruct Hy as (x & <- & Hx). apply Hpq.
    + left. reflexivity.
    + right. exact Hx.
    + rewrite Forall_forall in Hall. exact (Hall x Hx).
Qed.

(** Rows ordered by their [date] stay ordered as mappings. *)
Lemma dict_of_row_keeps_date_order (R : pyval -> pyval -> Prop)
    (rows : list sqlite_row) :
  Forall (fun row => In "date" (map fst row)) rows ->
  StronglySorted (by_date (fun row => row_getitem row "date") R) rows ->
  StronglySorted (by_date (fun m => dict_get m "date") R)
    (map dict_of_row rows).
Proof.
  intros Hcols. apply StronglySorted_map.
  intros a b Ha Hb. rewrite Forall_forall in Hcols. unfold by_date.
  rewrite (dict_get_dict_of_row a "date" (Hcols a Ha)).
  rewrite (dict_get_dict_of_row b "date" (Hcols b Hb)).
  exact (fun H => H).
Qed.

(** ** Properties of the executor and the tools *)

(** C5.  Outside [1, 365] [get_price_range] answers with a failure and makes
    no call at all; inside, it is the executor run on the fixed text ending
    in [LIMIT days].  So when the driver honours that text (at most [days]
    rows, each with a [date] column, ordered by it most recent first), a
    success returns exactly the driver's rows as mappings: at most [days]
    entries in [data], counted by [row_count], whose [date] entries are
    ordered most recent first. *)
Theorem get_price_range_validates_days (E : runtime) (days : Z) (h : history) :
  (days < 1 \/ days > 365 ->
   get_price_range E days h
   = (Ret [("error", PStr "Days must be between 1 and 365")], []))
  /\ (1 <= days <= 365 ->
      get_price_range E days h
      = execute_sql_query E
          ("SELECT * FROM gold_price ORDER BY date DESC LIMIT " ++ str_int days)
          h)
  /\ (1 <= days <= 365 ->
      forall newer_or_same : pyval -> pyval -> Prop,
        (forall h' rows,
            execute E h' (range_sql days) = inr rows ->
            (List.length rows <= Z.to_nat days)%nat
            /\ Forall (fun row => In "date" (map fst row)) rows
            /\ StronglySorted
                 (by_date (fun row => row_getitem row "date") newer_or_same)
                 rows) ->
        forall d t,
          get_price_range E days h = (Ret d, t) ->
          dict_get d "success" = Some (PBool true) ->
          exists (h' : history) (rows : list sqlite_row) (data : list pydict),
            execute E h' (range_sql days) = inr rows
            /\ data = map dict_of_row rows
            /\ dict_get d "data" = Some (PList (map PDict data))
            /\ dict_get d "row_count"
               = Some (PInt (Z.of_nat (List.length data)))
            /\ (List.length data <= Z.to_nat days)%nat
            /\ StronglySorted
                 (by_date (fun m => dict_get m "date") newer_or_same) data).
Proof.
  split; [|split].
  - intros Hd. unfold get_price_range.
    assert (Hb : (days <? 1) || (days >? 365) = true).
    { apply orb_true_iff. rewrite Z.gtb_ltb, !Z.ltb_lt. lia. }
    rewrite Hb. reflexivity.
  - apply get_price_range_in_range.
  - intros Hd newer_or_same Hdriver d t Hrun Hsucc.
    rewrite (get_price_range_in_range E days h Hd) in Hrun.
    destruct (execute_sql_query_success _ _ _ _ _ Hrun Hsucc)
      as (h' & rows & Hexec & ->).
    destruct (Hdriver _ _ Hexec) as (Hlen & Hcols & Hsorted).
    exists h', rows, (map dict_of_row rows).
    split; [exact Hexec|]. split; [reflexivity|].
    split; [reflexivity|]. split; [reflexivity|].
    split; [rewrite length_map; exact Hlen|].
    apply dict_of_row_keeps_date_order; assumption.
Qed.

Lemma get_price_range_validates_days_witness :
  get_price_range (rt_table price_table) 0 []
  = (Ret [("error", PStr "Days must be between 1 and 365")], [])
  /\ get_price_range (rt_table price_table) 366 []
     = (Ret [("error", PStr "Days must be between 1 and 365")], [])
  /\ get_price_range (rt_table price_table) 7 []
     = execute_sql_query (rt_table price_table)
         "SELECT * FROM gold_price ORDER BY date DESC LIMIT 7" []
  /\ exists d t data,
       get_price_range (rt_table price_table) 7 [] = (Ret d, t)
       /\ dict_get d "data" = Some (PList (map PDict data))
       /\ dict_get d "row_count" = Some (PInt (Z.of_nat (List.length data)))
       /\ (List.length data <= 7)%nat
       /\ StronglySorted
            (by_date (fun m => dict_get m "date") text_not_older) data.
Proof.
  split; [|split; [|split]].
  - apply (get_price_range_validates_days (rt_table price_table) 0 []). lia.
  - apply (get_price_range_validates_days (rt_table price_table) 366 []). lia.
  - apply (get_price_range_validates_days (rt_table price_table) 7 []). lia.
  - destruct (get_price_range (rt_table price_table) 7 []) as [[d|e] t] eqn:Hrun;
      [|vm_compute in Hrun; discriminate].
    destruct (proj2 (proj2 (get_price_range_validates_days
                              (rt_table price_table) 7 []))
                ltac:(lia) text_not_older)
      with (d := d) (t := t)
      as (h' & rows & data & _ & _ & Hdata & Hcount & Hlen & Hsorted).
    + intros h' rows Hrows. vm_compute in Hrows. injection Hrows as <-.
      split; [cbn; lia|]. split.
      * repeat constructor.
      * repeat constructor.
    + exact Hrun.
    + vm_compute in Hrun. injection Hrun as <- _. reflexivity.
    + exists d, t, data. repeat split; assumption.
Defined.

(** C6, amended.  The executor tests existence first and safety second.
    When the existence check answers no, the response is the setup failure
    with the resolved path, whatever the text.  When it answers yes and the
    text is unsafe, the response is the fixed rejection, the same for
    every rejected text; the calls made are exactly those of the existence
    check, and the rejected text is never submitted to the driver. *)
Theorem execute_sql_query_preconditions
    (E : runtime) (sql : string) (h : history) (t : list event) :
  (check_database_exists E h = (Ret false, t) ->
   execute_sql_query E sql h
   = (Ret [ ("error", PStr SETUP_MESSAGE);
            ("database_path", PStr (abspath E SQLITE_DB_PATH)) ], t))
  /\ (check_database_exists E h = (Ret true, t) ->
      is_safe_sql sql = false ->
      execute_sql_query E sql h
      = (Ret [("error", PStr REJECTION_MESSAGE)], t)
      /\ forall c, ~ In (EvExecute c sql) t).
Proof.
  split.
  - intros Hcheck. unfold execute_sql_query.
    rewrite (bind_ret _ _ _ _ _ Hcheck). cbn. rewrite app_nil_r. reflexivity.
  - intros Hcheck Hrej. split.
    + unfold execute_sql_query.
      rewrite (bind_ret _ _ _ _ _ Hcheck). cbn [negb]. rewrite Hrej.
      cbn. rewrite app_nil_r. reflexivity.
    + intros c Hin.
      assert (Hq : sql = CATALOG_SQL).
      { apply (check_database_exists_statements E h c).
        rewrite Hcheck. exact Hin. }
      subst sql. vm_compute in Hrej. discriminate.
Qed.

Lemma execute_sql_query_preconditions_witness :
  execute_sql_query rt_missing "select * from gold_price" []
  = (Ret [ ("error", PStr SETUP_MESSAGE);
           ("database_path", PStr SQLITE_DB_PATH) ],
     [EvPathExists SQLITE_DB_PATH])
  /\ execute_sql_query rt_ready "DROP TABLE gold_price" []
     = (Ret [("error", PStr REJECTION_MESSAGE)],
        [ EvPathExists SQLITE_DB_PATH; EvConnect SQLITE_DB_PATH 1%nat;
          EvExecute 1%nat CATALOG_SQL; EvClose 1%nat ]).
Proof.
  split.
  - apply (proj1 (execute_sql_query_preconditions rt_missing _ [] _)).
    reflexivity.
  - apply (proj2 (execute_sql_query_preconditions rt_ready _ [] _)).
    + reflexivity.
    + reflexivity.
Defined.

(** C6 as stated fails: a rejected text is answered after the existence
    check has opened a connection and queried the catalogue. *)
Lemma rejected_query_follows_database_probe :
  ~ (forall (E : runtime) (sql : string) (h : history),
        fst (check_database_exists E h) = Ret true ->
        is_safe_sql sql = false ->
        existsb is_driver_call (snd (execute_sql_query E sql h)) = false).
Proof.
  intros H.
  specialize (H rt_ready "DROP TABLE gold_price" [] eq_refl eq_refl).
  vm_compute in H. discriminate.
Qed.

(** C7.  When the existence check answers yes, the text is safe,
    the connection opens and the driver returns rows for it, [run_query]
    answers with a success whose [row_count] is the number of rows, whose
    [query] is the caller's text, and the text submitted to the driver is
    that same text. *)
Theorem run_query_success
    (E : runtime) (sql : string) (h : history) (t : list event)
    (rows : list sqlite_row) :
  check_database_exists E h = (Ret true, t) ->
  is_safe_sql sql = true ->
  connect E (h ++ t)%list SQLITE_DB_PATH = None ->
  execute E
    ((h ++ t) ++ [EvConnect SQLITE_DB_PATH (List.length (h ++ t)%list)])%list
    sql = inr rows ->
  run_query E sql h
  = (Ret [ ("success", PBool true);
           ("data", PList (map PDict (map dict_of_row rows)));
           ("row_count", PInt (Z.of_nat (List.length rows)));
           ("query", PStr sql) ],
     (t ++ [ EvConnect SQLITE_DB_PATH (List.length (h ++ t)%list);
             EvExecute (List.length (h ++ t)%list) sql;
             EvCommit (List.length (h ++ t)%list);
             EvClose (List.length (h ++ t)%list) ])%list).
Proof.
  intros Hcheck Hsafe Hconn Hexec.
  unfold run_query, execute_sql_query.
  rewrite (bind_ret _ _ _ _ _ Hcheck). cbn [negb]. rewrite Hsafe. cbn [negb].
  unfold with_conn, sqlite3_connect, conn_execute, conn_close, emit, attempt,
    bind, ret, raise.
  rewrite Hconn. cbn [app]. rewrite Hexec. cbn.
  unfold success_response. rewrite length_map. reflexivity.
Qed.

Lemma run_query_success_witness :
  run_query rt_ready "select * from gold_price" []
  = (Ret [ ("success", PBool true);
           ("data", PList (map PDict (map dict_of_row sample_rows)));
           ("row_count", PInt 3);
           ("query", PStr "select * from gold_price") ],
     [ EvPathExists SQLITE_DB_PATH; EvConnect SQLITE_DB_PATH 1%nat;
       EvExecute 1%nat CATALOG_SQL; EvClose 1%nat;
       EvConnect SQLITE_DB_PATH 4%nat;
       EvExecute 4%nat "select * from gold_price";
       EvCommit 4%nat; EvClose 4%nat ]).
Proof.
  apply (run_query_success rt_ready "select * from gold_price" []
           [ EvPathExists SQLITE_DB_PATH; EvConnect SQLITE_DB_PATH 1%nat;
             EvExecute 1%nat CATALOG_SQL; EvClose 1%nat ]
           sample_rows).
  - reflexivity.
  - vm_compute. reflexivity.
  - reflexivity.
  - reflexivity.
Defined.

(** C8.  When the configured file does not exist, every tool returns (no
    exception escapes) after the single existence probe: the five tools
    that go through the existence check return the setup failure carrying
    the resolved path, and [database_status] returns the [missing] status
    carrying it; [get_price_range] does so for every admissible [days]. *)
Theorem missing_database_reported
    (E : runtime) (h : history) (sql : string) (days : Z) :
  path_exists E h SQLITE_DB_PATH = false ->
  let failure :=
    Ret [ ("error", PStr SETUP_MESSAGE);
          ("database_path", PStr (abspath E SQLITE_DB_PATH)) ] in
  let probe := [EvPathExists SQLITE_DB_PATH] in
  run_query E sql h = (failure, probe)
  /\ get_table_info E h = (failure, probe)
  /\ sample_data E h = (failure, probe)
  /\ get_latest_price E h = (failure, probe)
  /\ (1 <= days <= 365 -> get_price_range E days h = (failure, probe))
  /\ database_status E h
     = (Ret [ ("status", PStr "missing");
              ("message", PStr "Database file does not exist");
              ("database_path", PStr (abspath E SQLITE_DB_PATH));
              ("setup_instructions",
               PStr "Run 'python create_sample_db.py' to create the database with sample data") ],
        probe).
Proof.
  intros Hmissing failure probe.
  pose proof (check_database_exists_missing E h Hmissing) as Hcheck.
  assert (Hexec : forall q, execute_sql_query E q h = (failure, probe)).
  { intros q. unfold execute_sql_query.
    rewrite (bind_ret _ _ _ _ _ Hcheck). reflexivity. }
  repeat split.
  - apply Hexec.
  - unfold get_table_info. rewrite (bind_ret _ _ _ _ _ Hcheck). reflexivity.
  - apply Hexec.
  - apply Hexec.
  - intros Hd.
    rewrite (get_price_range_in_range E days h Hd). apply Hexec.
  - unfold database_status, os_path_exists, bind, ret.
    rewrite Hmissing. reflexivity.
Qed.

Lemma missing_database_reported_witness :
  run_query rt_missing "select * from gold_price" []
  = (Ret [ ("error", PStr SETUP_MESSAGE);
           ("database_path", PStr SQLITE_DB_PATH) ],
     [EvPathExists SQLITE_DB_PATH])
  /\ get_price_range rt_missing 7 []
     = (Ret [ ("error", PStr SETUP_MESSAGE);
              ("database_path", PStr SQLITE_DB_PATH) ],
        [EvPathExists SQLITE_DB_PATH]).
Proof.
  pose proof (missing_database_reported rt_missing []
                "select * from gold_price" 7 eq_refl) as H.
  cbv zeta in H. destruct H as (Hrun & _ & _ & _ & Hrange & _).
  split; [exact Hrun | apply Hrange; lia].
Defined.

(** The executor closes the connection it opens on every path: whatever the
    runtime answers, it leaves open only what the existence check left. *)
Lemma execute_sql_query_closes_own_connection
    (E : runtime) (sql : string) (h : history) :
  still_open (snd (execute_sql_query E sql h))
  = still_open (snd (check_database_exists E h)).
Proof.
  unfold_ops. destruct (is_safe_sql sql);
    repeat (run_step; cbn [negb snd fst app]); cbn;
    rewrite ?length_app; cbn [List.length];
    repeat match goal with
           | |- context [Nat.eqb ?a ?b] =>
               destruct (Nat.eqb_spec a b); try lia; cbn
           end; reflexivity.
Qed.

(** C9 (the code departs from the claim).  When the file exists but is not
    a database, the existence check returns [False] with the connection it
    opened still open; [database_status] does the same when the count
    fails with a driver error; and a fault that is not a driver error leaves
    the existence check with its connection open and propagates. *)
Theorem connection_left_open_on_error :
  check_database_exists rt_not_a_database []
  = (Ret false,
     [ EvPathExists SQLITE_DB_PATH; EvConnect SQLITE_DB_PATH 1%nat;
       EvExecute 1%nat CATALOG_SQL ])
  /\ still_open (snd (check_database_exists rt_not_a_database [])) = [1%nat]
  /\ fst (database_status rt_locked [])
     = Ret [ ("status", PStr "error");
             ("message", PStr "Database error: database is locked");
             ("database_path", PStr SQLITE_DB_PATH) ]
  /\ still_open (snd (database_status rt_locked [])) = [5%nat]
  /\ fst (check_database_exists rt_fault [])
     = Raise (OtherException "out of memory")
  /\ still_open (snd (check_database_exists rt_fault [])) = [1%nat]
  /\ still_open (snd (run_query rt_not_a_database "select * from gold_price" []))
     = [1%nat].
Proof. repeat split; vm_compute; reflexivity. Qed.

(** C10.  The two fixed texts and every text built for an admissible [days]
    are accepted by [is_safe_sql], so [sample_data], [get_latest_price] and
    [get_price_range] with an admissible [days] never answer with the
    unsafe-SQL rejection. *)
Theorem canned_queries_are_safe :
  is_safe_sql "SELECT * FROM gold_price ORDER BY date DESC LIMIT 5" = true
  /\ is_safe_sql "SELECT * FROM gold_price ORDER BY date DESC LIMIT 1" = true
  /\ (forall days : Z,
        1 <= days <= 365 ->
        is_safe_sql
          ("SELECT * FROM gold_price ORDER BY date DESC LIMIT " ++ str_int days)
        = true)
  /\ (forall (E : runtime) (h : history),
        fst (sample_data E h) <> Ret [("error", PStr REJECTION_MESSAGE)]
        /\ fst (get_latest_price E h) <> Ret [("error", PStr REJECTION_MESSAGE)])
  /\ (forall (E : runtime) (h : history) (days : Z),
        1 <= days <= 365 ->
        fst (get_price_range E days h)
        <> Ret [("error", PStr REJECTION_MESSAGE)]).
Proof.
  split; [vm_compute; reflexivity|].
  split; [vm_compute; reflexivity|].
  split; [exact range_sql_safe|].
  split.
  - intros E h. split; apply execute_sql_query_not_rejected;
      vm_compute; reflexivity.
  - intros E h days Hd. rewrite (get_price_range_in_range E days h Hd).
    apply execute_sql_query_not_rejected. apply range_sql_safe. exact Hd.
Qed.

Lemma canned_queries_are_safe_witness :
  is_safe_sql "SELECT * FROM gold_price ORDER BY date DESC LIMIT 365" = true
  /\ fst (get_price_range rt_ready 7 [])
     <> Ret [("error", PStr REJECTION_MESSAGE)].
Proof.
  destruct canned_queries_are_safe as (_ & _ & Hsafe & _ & Hrange).
  split.
  - apply (Hsafe 365). lia.
  - apply (Hrange rt_ready [] 7). lia.
Defined.

(** ** Further properties of [is_safe_sql] *)

Lemma lower_char_idempotent (c : ascii) :
  lower_char (lower_char c) = lower_char c.
Proof. destruct c as [[] [] [] [] [] [] [] []]; reflexivity. Qed.

Lemma lower_idempotent (s : string) : lower (lower s) = lower s.
Proof.
  induction s as [|c t IH]; simpl; [reflexivity|].
  rewrite lower_char_idempotent, IH. reflexivity.
Qed.

Lemma lower_lstrip (s : string) : lower (lstrip s) = lstrip (lower s).
Proof.
  unfold lstrip. induction s as [|c t IH]; simpl; [reflexivity|].
  rewrite isspace_lower_char. destruct (isspace c); [exact IH|reflexivity].
Qed.

Lemma lower_strip (s : string) : lower (strip s) = strip (lower s).
Proof. unfold strip. rewrite lower_rstrip, lower_lstrip. reflexivity. Qed.

(** What [lstrip] returns is empty or starts with a non-space. *)
Lemma lstrip_by_head (p : ascii -> bool) (s : string) :
  match lstrip_by p s with
  | EmptyString => True
  | String c _ => p c = false
  end.
Proof.
  induction s as [|c t IH]; simpl; [exact I|].
  destruct (p c) eqn:Hp; [exact IH | exact Hp].
Qed.

Lemma lstrip_by_rstrip_by (p : ascii -> bool) (s : string) :
  lstrip_by p (rstrip_by p (lstrip_by p s)) = rstrip_by p (lstrip_by p s).
Proof.
  pose proof (lstrip_by_head p s) as Hhead.
  destruct (lstrip_by p s) as [|c t]; [reflexivity|].
  simpl. rewrite Hhead, andb_false_r. simpl. rewrite Hhead. reflexivity.
Qed.

Lemma strip_idempotent (s : string) : strip (strip s) = strip s.
Proof.
  unfold strip, lstrip, rstrip.
  rewrite lstrip_by_rstrip_by. apply rstrip_by_idempotent.
Qed.

Lemma startswith_select_nonempty (sql : string) :
  startswith (lower (strip sql)) "select" = true -> is_empty sql = false.
Proof. destruct sql; [discriminate | reflexivity]. Qed.

Lemma existsb_false_iff {A} (f : A -> bool) (l : list A) :
  existsb f l = false <-> forall x, In x l -> f x = false.
Proof.
  induction l as [|a l IH]; simpl.
  - split; [intros _ x [] | reflexivity].
  - rewrite orb_false_iff, IH. split.
    + intros [Ha Hl] x [<- | Hx]; [exact Ha | exact (Hl x Hx)].
    + intros H. split; [apply H; left; reflexivity|].
      intros x Hx. apply H. right. exact Hx.
Qed.

(** The emptiness test is implied by the test for [select]. *)
Lemma is_safe_sql_true_normal (sql : string) :
  is_safe_sql sql = true <->
  startswith (lower (strip sql)) "select" = true
  /\ contains "gold_price" (lower (strip sql)) = true
  /\ semicolon_check (lower (strip sql)) = false
  /\ existsb (fun keyword => contains keyword (lower (strip sql)))
       forbidden_keywords = false.
Proof.
  rewrite is_safe_sql_true_iff. split.
  - intros (_ & H). exact H.
  - intros H. split; [|exact H].
    apply startswith_select_nonempty. exact (proj1 H).
Qed.

(** X1.  The exact acceptance condition of [is_safe_sql]: the trimmed,
    lower-cased text starts with [select], contains [gold_price], does not
    end with a semicolon and contains none of the forbidden keywords. *)
Theorem is_safe_sql_accepts_iff (sql : string) :
  is_safe_sql sql = true <->
  startswith (lower (strip sql)) "select" = true
  /\ contains "gold_price" (lower (strip sql)) = true
  /\ ends_with_char ";" (lower (strip sql)) = false
  /\ (forall keyword,
        In keyword forbidden_keywords ->
        contains keyword (lower (strip sql)) = false).
Proof.
  rewrite is_safe_sql_true_normal, semicolon_check_normalised,
    existsb_false_iff.
  reflexivity.
Qed.

Lemma is_safe_sql_accepts_iff_witness :
  is_safe_sql "  Select price From gold_price; -- recent" = true.
Proof.
  apply (proj2 (is_safe_sql_accepts_iff _)).
  split; [vm_compute; reflexivity|].
  split; [vm_compute; reflexivity|].
  split; [vm_compute; reflexivity|].
  intros keyword Hin. simpl in Hin.
  repeat (destruct Hin as [<- | Hin]; [vm_compute; reflexivity|]).
  destruct Hin.
Defined.

(** X2.  The verdict of [is_safe_sql] depends only on the trimmed,
    lower-cased text: two texts with the same normal form get the same
    verdict; in particular lower-casing a text, or trimming it, does not
    change the verdict. *)
Theorem is_safe_sql_depends_on_normal_form :
  (forall a b : string,
      lower (strip a) = lower (strip b) -> is_safe_sql a = is_safe_sql b)
  /\ (forall sql : string, is_safe_sql (lower sql) = is_safe_sql sql)
  /\ (forall sql : string, is_safe_sql (strip sql) = is_safe_sql sql).
Proof.
  assert (Hnorm : forall a b : string,
             lower (strip a) = lower (strip b) ->
             is_safe_sql a = is_safe_sql b).
  { intros a b Heq.
    destruct (is_safe_sql a) eqn:Ha, (is_safe_sql b) eqn:Hb;
      try reflexivity.
    - apply is_safe_sql_true_normal in Ha. rewrite Heq in Ha.
      apply is_safe_sql_true_normal in Ha. congruence.
    - apply is_safe_sql_true_normal in Hb. rewrite <- Heq in Hb.
      apply is_safe_sql_true_normal in Hb. congruence. }
  split; [exact Hnorm|]. split; intros sql; apply Hnorm.
  - rewrite <- lower_strip. apply lower_idempotent.
  - rewrite strip_idempotent. reflexivity.
Qed.

Lemma is_safe_sql_depends_on_normal_form_witness :
  is_safe_sql "  SELECT * FROM Gold_Price  "
  = is_safe_sql "select * from gold_price".
Proof.
  apply (proj1 is_safe_sql_depends_on_normal_form).
  vm_compute. reflexivity.
Defined.

(** ** Further properties of the existence check and the executor *)

(** X3.  [check_database_exists] answers [True] exactly when the file
    exists, the connection opens and the catalogue lookup returns at least
    one row. *)
Theorem check_database_exists_true_iff (E : runtime) (h : history) :
  fst (check_database_exists E h) = Ret true <->
  path_exists E h SQLITE_DB_PATH = true
  /\ connect E (h ++ [EvPathExists SQLITE_DB_PATH])%list SQLITE_DB_PATH = None
  /\ exists row rows,
       execute E
         ((h ++ [EvPathExists SQLITE_DB_PATH])
          ++ [EvConnect SQLITE_DB_PATH
                (List.length (h ++ [EvPathExists SQLITE_DB_PATH])%list)])%list
         CATALOG_SQL = inr (row :: rows).
Proof.
  unfold_ops. split.
  - repeat (run_step; cbn [negb snd fst app]); cbn; intros Heq;
      try discriminate.
    repeat split. eexists. eexists. reflexivity.
  - intros (Hp & Hc & row & rows & Hx). rewrite Hp. cbn [negb].
    rewrite Hc. cbn [app]. rewrite Hx. reflexivity.
Qed.

Lemma check_database_exists_true_iff_witness :
  fst (check_database_exists rt_ready []) = Ret true.
Proof.
  apply (proj2 (check_database_exists_true_iff rt_ready [])).
  split; [reflexivity|]. split; [reflexivity|].
  exists [("name", PStr "gold_price")], []. reflexivity.
Defined.

(** X4.  [check_database_exists] fails closed: a driver error while
    connecting or while looking the table up gives [False]; an empty lookup
    gives [False] after closing; and the driver error itself is never
    raised to the caller. *)
Theorem check_database_exists_fails_closed (E : runtime) (h : history) :
  let h1 := (h ++ [EvPathExists SQLITE_DB_PATH])%list in
  let c := List.length h1 in
  let h2 := (h1 ++ [EvConnect SQLITE_DB_PATH c])%list in
  path_exists E h SQLITE_DB_PATH = true ->
  (forall msg, fst (check_database_exists E h) <> Raise (SqliteError msg))
  /\ (forall msg,
        connect E h1 SQLITE_DB_PATH = Some (SqliteError msg) ->
        check_database_exists E h
        = (Ret false,
           [EvPathExists SQLITE_DB_PATH; EvConnectFailed SQLITE_DB_PATH]))
  /\ (forall msg,
        connect E h1 SQLITE_DB_PATH = None ->
        execute E h2 CATALOG_SQL = inl (SqliteError msg) ->
        check_database_exists E h
        = (Ret false,
           [ EvPathExists SQLITE_DB_PATH; EvConnect SQLITE_DB_PATH c;
             EvExecute c CATALOG_SQL ]))
  /\ (connect E h1 SQLITE_DB_PATH = None ->
      execute E h2 CATALOG_SQL = inr [] ->
      check_database_exists E h
      = (Ret false,
         [ EvPathExists SQLITE_DB_PATH; EvConnect SQLITE_DB_PATH c;
           EvExecute c CATALOG_SQL; EvClose c ])).
Proof.
  intros h1 c h2 Hp. subst h1 c h2. unfold_ops. rewrite Hp. cbn [negb].
  split; [|split; [|split]].
  - intros msg. repeat (run_step; cbn [negb snd fst app]); cbn; discriminate.
  - intros msg Hc. rewrite Hc. reflexivity.
  - intros msg Hc Hx. rewrite Hc. cbn [app]. rewrite Hx. reflexivity.
  - intros Hc Hx. rewrite Hc. cbn [app]. rewrite Hx. reflexivity.
Qed.

Lemma check_database_exists_fails_closed_witness :
  check_database_exists rt_cannot_open []
  = (Ret false, [EvPathExists SQLITE_DB_PATH; EvConnectFailed SQLITE_DB_PATH])
  /\ check_database_exists rt_no_table []
     = (Ret false,
        [ EvPathExists SQLITE_DB_PATH; EvConnect SQLITE_DB_PATH 1%nat;
          EvExecute 1%nat CATALOG_SQL; EvClose 1%nat ]).
Proof.
  split.
  - apply (proj1 (proj2 (check_database_exists_fails_closed rt_cannot_open []
                           eq_refl))
             "unable to open database file").
    reflexivity.
  - apply (proj2 (proj2 (proj2 (check_database_exists_fails_closed rt_no_table
                                  [] eq_refl)))).
    + reflexivity.
    + reflexivity.
Defined.

(** X5.  Every statement [execute_sql_query] submits to the driver is either
    the catalogue lookup or the caller's text, and is accepted by
    [is_safe_sql]: a rejected text never reaches the driver. *)
Theorem execute_sql_query_submits_only_safe_sql
    (E : runtime) (sql : string) (h : history) (c : conn_id) (q : string) :
  In (EvExecute c q) (snd (execute_sql_query E sql h)) ->
  (q = CATALOG_SQL \/ q = sql) /\ is_safe_sql q = true.
Proof.
  assert (Hcat : is_safe_sql CATALOG_SQL = true) by (vm_compute; reflexivity).
  unfold_ops. destruct (is_safe_sql sql) eqn:Hsafe;
    repeat (run_step; cbn [negb snd fst app]); cbn;
    intros Hin;
    repeat match goal with
           | H : _ \/ _ |- _ => destruct H as [H | H]
           | H : False |- _ => destruct H
           | H : _ = EvExecute _ _ |- _ => inversion H; subst; clear H
           end;
    try discriminate; auto.
Qed.

Lemma execute_sql_query_submits_only_safe_sql_witness :
  ("select * from gold_price" = CATALOG_SQL
   \/ "select * from gold_price" = "select * from gold_price")
  /\ is_safe_sql "select * from gold_price" = true.
Proof.
  apply (execute_sql_query_submits_only_safe_sql rt_ready
           "select * from gold_price" [] 4%nat).
  vm_compute. tauto.
Defined.

(** X6.  Past both preconditions, a failure to connect and a failure of the
    statement are returned as failures carrying the exception's text,
    prefixed by [SQLite error: ] for a driver error and by
    [Unexpected error: ] for any other exception; after a failed statement
    the connection is rolled back and closed. *)
Theorem execute_sql_query_reports_errors
    (E : runtime) (sql : string) (h : history) (t : list event) (e : exn) :
  let c := List.length (h ++ t)%list in
  let failure :=
    match e with
    | SqliteError msg => [("error", PStr ("SQLite error: " ++ msg))]
    | OtherException msg => [("error", PStr ("Unexpected error: " ++ msg))]
    end in
  check_database_exists E h = (Ret true, t) ->
  is_safe_sql sql = true ->
  (connect E (h ++ t)%list SQLITE_DB_PATH = Some e ->
   execute_sql_query E sql h
   = (Ret failure, (t ++ [EvConnectFailed SQLITE_DB_PATH])%list))
  /\ (connect E (h ++ t)%list SQLITE_DB_PATH = None ->
      execute E ((h ++ t) ++ [EvConnect SQLITE_DB_PATH c])%list sql = inl e ->
      execute_sql_query E sql h
      = (Ret failure,
         (t ++ [ EvConnect SQLITE_DB_PATH c; EvExecute c sql;
                 EvRollback c; EvClose c ])%list)).
Proof.
  intros c failure Hcheck Hsafe. subst c failure.
  unfold execute_sql_query.
  rewrite (bind_ret _ _ _ _ _ Hcheck). cbn [negb]. rewrite Hsafe. cbn [negb].
  unfold with_conn, sqlite3_connect, conn_execute, conn_close, emit, attempt,
    bind, ret, raise.
  split.
  - intros Hc. rewrite Hc. destruct e; reflexivity.
  - intros Hc Hx. rewrite Hc. cbn [app]. rewrite Hx. destruct e; reflexivity.
Qed.

Lemma execute_sql_query_reports_errors_witness :
  execute_sql_query rt_locked "select * from gold_price" []
  = (Ret [("error", PStr "SQLite error: database is locked")],
     [ EvPathExists SQLITE_DB_PATH; EvConnect SQLITE_DB_PATH 1%nat;
       EvExecute 1%nat CATALOG_SQL; EvClose 1%nat;
       EvConnect SQLITE_DB_PATH 4%nat;
       EvExecute 4%nat "select * from gold_price";
       EvRollback 4%nat; EvClose 4%nat ]).
Proof.
  apply (proj2 (execute_sql_query_reports_errors rt_locked
                  "select * from gold_price" []
                  [ EvPathExists SQLITE_DB_PATH; EvConnect SQLITE_DB_PATH 1%nat;
                    EvExecute 1%nat CATALOG_SQL; EvClose 1%nat ]
                  (SqliteError "database is locked") eq_refl eq_refl)).
  - reflexivity.
  - reflexivity.
Defined.

(** X7.  [execute_sql_query] and [get_table_info] raise exactly when the
    existence check raises, with the same exception, and that exception is
    never a driver error: everything raised after the check is turned into
    a failure response. *)
Theorem tools_raise_only_from_existence_check
    (E : runtime) (sql : string) (h : history) (e : exn) :
  (fst (execute_sql_query E sql h) = Raise e
   <-> fst (check_database_exists E h) = Raise e)
  /\ (fst (get_table_info E h) = Raise e
      <-> fst (check_database_exists E h) = Raise e)
  /\ (fst (check_database_exists E h) = Raise e ->
      exists msg, e = OtherException msg).
Proof.
  split; [|split].
  - unfold_ops. destruct (is_safe_sql sql);
      repeat (run_step; cbn [negb snd fst app]); cbn;
      split; intros H; (discriminate || congruence).
  - unfold_ops.
    repeat (run_step; cbn [negb snd fst app]); cbn;
      repeat match goal with
             | |- context [row_getitem ?r ?k] => destruct (row_getitem r k)
             end; cbn;
      split; intros H; (discriminate || congruence).
  - unfold_ops.
    repeat (run_step; cbn [negb snd fst app]); cbn;
      intros H; try discriminate; inversion H; eexists; reflexivity.
Qed.

Lemma tools_raise_only_from_existence_check_witness :
  fst (execute_sql_query rt_fault "select * from gold_price" [])
  = Raise (OtherException "out of memory").
Proof.
  apply (proj2 (proj1 (tools_raise_only_from_existence_check rt_fault
                         "select * from gold_price" []
                         (OtherException "out of memory")))).
  reflexivity.
Defined.

(** X8.  Every response of [execute_sql_query] is either a failure, with a
    text under [error] and no [success] key, or a success, with no [error]
    key, whose [row_count] is the number of entries of [data] and whose
    [query] is the text it was called with. *)
Theorem execute_sql_query_response_shape
    (E : runtime) (sql : string) (h : history) d t :
  execute_sql_query E sql h = (Ret d, t) ->
  (exists msg,
      dict_get d "error" = Some (PStr msg) /\ dict_get d "success" = None)
  \/ (dict_get d "error" = None
      /\ dict_get d "success" = Some (PBool true)
      /\ dict_get d "query" = Some (PStr sql)
      /\ exists data,
          dict_get d "data" = Some (PList data)
          /\ dict_get d "row_count"
             = Some (PInt (Z.of_nat (List.length data)))).
Proof.
  unfold_ops. destruct (is_safe_sql sql);
    repeat (run_step; cbn [negb snd fst app]); cbn [negb snd fst app];
    intros Heq; inversion Heq; subst; clear Heq;
    first
      [ left; eexists; split; reflexivity
      | right; cbn [dict_get success_response String.eqb Ascii.eqb Bool.eqb];
        repeat split; eexists; split;
        [reflexivity | rewrite length_map; reflexivity] ].
Qed.

Lemma execute_sql_query_response_shape_witness :
  exists d t,
    execute_sql_query rt_ready "select * from gold_price" [] = (Ret d, t)
    /\ dict_get d "error" = None
    /\ dict_get d "row_count" = Some (PInt 3).
Proof.
  eexists. eexists. split; [vm_compute; reflexivity|].
  destruct (execute_sql_query_response_shape rt_ready
              "select * from gold_price" [] _ _ eq_refl)
    as [(msg & Herr & _) | (Herr & _ & _ & data & Hdata & Hcount)].
  - vm_compute in Herr. discriminate.
  - split; [exact Herr|]. vm_compute. reflexivity.
Defined.

(** ** Further properties of the tools *)

Ltac decide_conn_ids :=
  rewrite ?length_app; cbn [List.length];
  repeat match goal with
         | |- context [Nat.eqb ?a ?b] =>
             destruct (Nat.eqb_spec a b); try lia; cbn
         end.

Ltac split_row_lookup :=
  repeat match goal with
         | |- context [row_getitem ?r ?k] => destruct (row_getitem r k)
         end.

(** X9.  [execute_sql_query] and [get_table_info] return with exactly the
    connections open that the existence check left open, on every path; and
    an existence check that answers [True] leaves none, so after a passed
    check both return with every connection closed. *)
Theorem tools_close_their_own_connection
    (E : runtime) (sql : string) (h : history) :
  still_open (snd (execute_sql_query E sql h))
  = still_open (snd (check_database_exists E h))
  /\ still_open (snd (get_table_info E h))
     = still_open (snd (check_database_exists E h))
  /\ (fst (check_database_exists E h) = Ret true ->
      still_open (snd (check_database_exists E h)) = []).
Proof.
  split; [|split].
  - unfold_ops. destruct (is_safe_sql sql);
      repeat (run_step; cbn [negb snd fst app]); cbn;
      decide_conn_ids; reflexivity.
  - unfold_ops.
    repeat (run_step; cbn [negb snd fst app]); cbn;
      split_row_lookup; cbn; decide_conn_ids; reflexivity.
  - unfold_ops.
    repeat (run_step; cbn [negb snd fst app]); cbn;
      intros H; try discriminate; decide_conn_ids; reflexivity.
Qed.

Lemma tools_close_their_own_connection_witness :
  still_open (snd (check_database_exists rt_schema [])) = [].
Proof.
  apply (proj2 (proj2 (tools_close_their_own_connection rt_schema "" []))).
  reflexivity.
Defined.

(** X10.  When the existence check passes, the connection opens, the schema
    statement returns rows and the count statement returns a first row with
    a [count] column, [get_table_info] returns a success with one mapping
    per schema row, the counted value and the resolved path, after running
    the two statements on one connection, committing and closing it. *)
Theorem get_table_info_success
    (E : runtime) (h : history) (t : list event)
    (info : list sqlite_row) (row : sqlite_row) (rest : list sqlite_row)
    (count : pyval) :
  let c := List.length (h ++ t)%list in
  let h1 := ((h ++ t) ++ [EvConnect SQLITE_DB_PATH c])%list in
  check_database_exists E h = (Ret true, t) ->
  connect E (h ++ t)%list SQLITE_DB_PATH = None ->
  execute E h1 TABLE_INFO_SQL = inr info ->
  execute E (h1 ++ [EvExecute c TABLE_INFO_SQL])%list COUNT_SQL
  = inr (row :: rest) ->
  row_getitem row "count" = Some count ->
  get_table_info E h
  = (Ret [ ("success", PBool true);
           ("table_name", PStr "gold_price");
           ("columns", PList (map PDict (map dict_of_row info)));
           ("row_count", count);
           ("database_path", PStr (abspath E SQLITE_DB_PATH)) ],
     (t ++ [ EvConnect SQLITE_DB_PATH c; EvExecute c TABLE_INFO_SQL;
             EvExecute c COUNT_SQL; EvCommit c; EvClose c ])%list).
Proof.
  intros c h1 Hcheck Hconn Hinfo Hcount Hget. subst c h1.
  unfold get_table_info.
  rewrite (bind_ret _ _ _ _ _ Hcheck). cbn [negb].
  unfold with_conn, fetchone_named, sqlite3_connect, conn_execute, conn_close,
    emit, attempt, bind, ret, raise.
  rewrite Hconn. cbn [app]. rewrite Hinfo. cbn [app]. rewrite Hcount, Hget.
  reflexivity.
Qed.

Lemma get_table_info_success_witness :
  get_table_info rt_schema []
  = (Ret [ ("success", PBool true);
           ("table_name", PStr "gold_price");
           ("columns",
            PList [ PDict (column_info 0 "date" "TEXT");
                    PDict (column_info 1 "price" "REAL") ]);
           ("row_count", PInt 3);
           ("database_path", PStr SQLITE_DB_PATH) ],
     [ EvPathExists SQLITE_DB_PATH; EvConnect SQLITE_DB_PATH 1%nat;
       EvExecute 1%nat CATALOG_SQL; EvClose 1%nat;
       EvConnect SQLITE_DB_PATH 4%nat; EvExecute 4%nat TABLE_INFO_SQL;
       EvExecute 4%nat COUNT_SQL; EvCommit 4%nat; EvClose 4%nat ]).
Proof.
  apply (get_table_info_success rt_schema []
           [ EvPathExists SQLITE_DB_PATH; EvConnect SQLITE_DB_PATH 1%nat;
             EvExecute 1%nat CATALOG_SQL; EvClose 1%nat ]
           [column_info 0 "date" "TEXT"; column_info 1 "price" "REAL"]
           [("count", PInt 3)] [] (PInt 3)).
  - reflexivity.
  - reflexivity.
  - reflexivity.
  - reflexivity.
  - reflexivity.
Defined.

(** X11.  Past the existence check, [get_table_info] turns every failure
    into a failure response and closes its connection: a failed schema or
    count statement is rolled back and reported with the exception's text,
    and a count that yields no row, or a row without a [count] column, is
    reported as an unexpected error. *)
Theorem get_table_info_reports_errors
    (E : runtime) (h : history) (t : list event) :
  let c := List.length (h ++ t)%list in
  let h1 := ((h ++ t) ++ [EvConnect SQLITE_DB_PATH c])%list in
  let h2 := (h1 ++ [EvExecute c TABLE_INFO_SQL])%list in
  check_database_exists E h = (Ret true, t) ->
  connect E (h ++ t)%list SQLITE_DB_PATH = None ->
  (forall e,
      execute E h1 TABLE_INFO_SQL = inl e ->
      get_table_info E h
      = (Ret (error_response e),
         (t ++ [ EvConnect SQLITE_DB_PATH c; EvExecute c TABLE_INFO_SQL;
                 EvRollback c; EvClose c ])%list))
  /\ (forall info e,
        execute E h1 TABLE_INFO_SQL = inr info ->
        execute E h2 COUNT_SQL = inl e ->
        get_table_info E h
        = (Ret (error_response e),
           (t ++ [ EvConnect SQLITE_DB_PATH c; EvExecute c TABLE_INFO_SQL;
                   EvExecute c COUNT_SQL; EvRollback c; EvClose c ])%list))
  /\ (forall info,
        execute E h1 TABLE_INFO_SQL = inr info ->
        execute E h2 COUNT_SQL = inr [] ->
        get_table_info E h
        = (Ret [("error",
                 PStr "Unexpected error: 'NoneType' object is not subscriptable")],
           (t ++ [ EvConnect SQLITE_DB_PATH c; EvExecute c TABLE_INFO_SQL;
                   EvExecute c COUNT_SQL; EvRollback c; EvClose c ])%list))
  /\ (forall info row rest,
        execute E h1 TABLE_INFO_SQL = inr info ->
        execute E h2 COUNT_SQL = inr (row :: rest) ->
        row_getitem row "count" = None ->
        get_table_info E h
        = (Ret [("error", PStr "Unexpected error: No item with that key")],
           (t ++ [ EvConnect SQLITE_DB_PATH c; EvExecute c TABLE_INFO_SQL;
                   EvExecute c COUNT_SQL; EvRollback c; EvClose c ])%list)).
Proof.
  intros c h1 h2 Hcheck Hconn. subst c h1 h2.
  unfold get_table_info.
  rewrite (bind_ret _ _ _ _ _ Hcheck). cbn [negb].
  unfold with_conn, fetchone_named, sqlite3_connect, conn_execute, conn_close,
    emit, attempt, bind, ret, raise.
  rewrite Hconn. cbn [app].
  split; [|split; [|split]].
  - intros e Hinfo. rewrite Hinfo. reflexivity.
  - intros info e Hinfo Hcount. rewrite Hinfo. cbn [app]. rewrite Hcount.
    reflexivity.
  - intros info Hinfo Hcount. rewrite Hinfo. cbn [app]. rewrite Hcount.
    reflexivity.
  - intros info row rest Hinfo Hcount Hget. rewrite Hinfo. cbn [app].
    rewrite Hcount, Hget. reflexivity.
Qed.

Lemma get_table_info_reports_errors_witness :
  get_table_info rt_locked []
  = (Ret [("error", PStr "SQLite error: database is locked")],
     [ EvPathExists SQLITE_DB_PATH; EvConnect SQLITE_DB_PATH 1%nat;
       EvExecute 1%nat CATALOG_SQL; EvClose 1%nat;
       EvConnect SQLITE_DB_PATH 4%nat; EvExecute 4%nat TABLE_INFO_SQL;
       EvRollback 4%nat; EvClose 4%nat ]).
Proof.
  apply (proj1 (get_table_info_reports_errors rt_locked []
                  [ EvPathExists SQLITE_DB_PATH;
                    EvConnect SQLITE_DB_PATH 1%nat;
                    EvExecute 1%nat CATALOG_SQL; EvClose 1%nat ]
                  eq_refl eq_refl)
           (SqliteError "database is locked")).
  reflexivity.
Defined.

(** X12.  [get_table_info] submits only its three fixed statements, and its
    schema statement is one [is_safe_sql] rejects: it reaches the driver
    without passing [is_safe_sql], while [run_query] never submits it. *)
Theorem get_table_info_statements (E : runtime) (h : history) :
  (forall c q,
      In (EvExecute c q) (snd (get_table_info E h)) ->
      q = CATALOG_SQL \/ q = TABLE_INFO_SQL \/ q = COUNT_SQL)
  /\ is_safe_sql TABLE_INFO_SQL = false
  /\ (forall c, ~ In (EvExecute c TABLE_INFO_SQL)
                   (snd (run_query E TABLE_INFO_SQL h))).
Proof.
  split; [|split].
  - intros c q. unfold_ops.
    repeat (run_step; cbn [negb snd fst app]); cbn;
      split_row_lookup; cbn; intros Hin;
      repeat match goal with
             | H : _ \/ _ |- _ => destruct H as [H | H]
             | H : False |- _ => destruct H
             | H : _ = EvExecute _ _ |- _ => inversion H; subst; clear H
             end;
      try discriminate; auto.
  - vm_compute. reflexivity.
  - intros c. unfold_ops.
    replace (is_safe_sql TABLE_INFO_SQL) with false
      by (vm_compute; reflexivity).
    repeat (run_step; cbn [negb snd fst app]); cbn; intros Hin;
      repeat match goal with
             | H : _ \/ _ |- _ => destruct H as [H | H]
             | H : False |- _ => destruct H
             end;
      discriminate.
Qed.

Lemma get_table_info_statements_witness :
  TABLE_INFO_SQL = CATALOG_SQL \/ TABLE_INFO_SQL = TABLE_INFO_SQL
  \/ TABLE_INFO_SQL = COUNT_SQL.
Proof.
  apply (proj1 (get_table_info_statements rt_schema []) 4%nat).
  vm_compute. tauto.
Defined.

(** X13.  Whatever [database_status] returns carries the resolved path and
    one of the four statuses [missing], [invalid], [ready], [error]; setup
    instructions come with [missing] and [invalid] only, and a record count
    with [ready] only. *)
Theorem database_status_shape (E : runtime) (h : history) d t :
  database_status E h = (Ret d, t) ->
  dict_get d "database_path" = Some (PStr (abspath E SQLITE_DB_PATH))
  /\ exists status,
      dict_get d "status" = Some (PStr status)
      /\ In status ["missing"; "invalid"; "ready"; "error"]
      /\ (dict_get d "setup_instructions" <> None
          <-> status = "missing" \/ status = "invalid")
      /\ (dict_get d "record_count" <> None <-> status = "ready").
Proof.
  unfold_ops.
  repeat (run_step; cbn [negb snd fst app]); cbn [negb snd fst app];
    repeat match goal with
           | |- context [match ?r with [] => _ | _ :: _ => _ end] =>
               destruct r as [|[? ?] ?]
           end; cbn [negb snd fst app];
    intros Heq; inversion Heq; subst; clear Heq;
    (split; [reflexivity|]); eexists; (split; [reflexivity|]);
    cbn; intuition (try discriminate; try congruence).
Qed.

Lemma database_status_shape_witness :
  dict_get (match fst (database_status rt_no_table []) with
            | Ret d => d
            | Raise _ => []
            end) "database_path"
  = Some (PStr SQLITE_DB_PATH).
Proof.
  apply (database_status_shape rt_no_table [] _
           (snd (database_status rt_no_table []))).
  reflexivity.
Defined.

(** X14.  When the file exists, the existence check passes, the connection
    opens and the count statement returns a first row, [database_status]
    reports [ready] with the first value of that row as record count and
    inside the message, and closes the connection. *)
Theorem database_status_ready
    (E : runtime) (h : history) (t : list event)
    (col : string) (count : pyval) (more : sqlite_row)
    (rest : list sqlite_row) :
  let h1 := ((h ++ [EvPathExists SQLITE_DB_PATH]) ++ t)%list in
  let c := List.length h1 in
  path_exists E h SQLITE_DB_PATH = true ->
  check_database_exists E (h ++ [EvPathExists SQLITE_DB_PATH])%list
  = (Ret true, t) ->
  connect E h1 SQLITE_DB_PATH = None ->
  execute E (h1 ++ [EvConnect SQLITE_DB_PATH c])%list COUNT_SQL
  = inr (((col, count) :: more) :: rest) ->
  database_status E h
  = (Ret [ ("status", PStr "ready");
           ("message",
            PStr ("Database is ready with " ++ py_str E count ++ " records"));
           ("database_path", PStr (abspath E SQLITE_DB_PATH));
           ("record_count", count) ],
     (EvPathExists SQLITE_DB_PATH
      :: t ++ [ EvConnect SQLITE_DB_PATH c; EvExecute c COUNT_SQL;
                EvClose c ])%list).
Proof.
  intros h1 c Hp Hcheck Hconn Hcount. subst h1 c.
  unfold database_status.
  unfold os_path_exists at 1. unfold bind at 1. rewrite Hp. cbn [negb].
  rewrite (bind_ret _ _ _ _ _ Hcheck). cbn [negb].
  unfold fetchone_index0, sqlite3_connect, conn_execute, conn_close,
    attempt, bind, ret, raise.
  rewrite Hconn. cbn [app]. rewrite Hcount. cbn.
  rewrite ?app_nil_r. reflexivity.
Qed.

Lemma database_status_ready_witness :
  database_status rt_schema []
  = (Ret [ ("status", PStr "ready");
           ("message", PStr "Database is ready with 3 records");
           ("database_path", PStr SQLITE_DB_PATH);
           ("record_count", PInt 3) ],
     [ EvPathExists SQLITE_DB_PATH; EvPathExists SQLITE_DB_PATH;
       EvConnect SQLITE_DB_PATH 2%nat; EvExecute 2%nat CATALOG_SQL;
       EvClose 2%nat; EvConnect SQLITE_DB_PATH 5%nat;
       EvExecute 5%nat COUNT_SQL; EvClose 5%nat ]).
Proof.
  apply (database_status_ready rt_schema []
           [ EvPathExists SQLITE_DB_PATH; EvConnect SQLITE_DB_PATH 2%nat;
             EvExecute 2%nat CATALOG_SQL; EvClose 2%nat ]
           "count" (PInt 3) [] []).
  - reflexivity.
  - reflexivity.
  - reflexivity.
  - reflexivity.
Defined.

(** X15.  With the file present, [database_status] reports [invalid] when
    the existence check answers [False]; past a passed check it reports
    [error] with the driver's text when connecting or counting raises a
    driver error, and lets any other exception escape. *)
Theorem database_status_not_ready
    (E : runtime) (h : history) (t : list event) :
  let h1 := ((h ++ [EvPathExists SQLITE_DB_PATH]) ++ t)%list in
  let c := List.length h1 in
  let error_status msg :=
    [ ("status", PStr "error");
      ("message", PStr ("Database error: " ++ msg));
      ("database_path", PStr (abspath E SQLITE_DB_PATH)) ] in
  path_exists E h SQLITE_DB_PATH = true ->
  (check_database_exists E (h ++ [EvPathExists SQLITE_DB_PATH])%list
   = (Ret false, t) ->
   database_status E h
   = (Ret [ ("status", PStr "invalid");
            ("message",
             PStr "Database exists but gold_price table is missing");
            ("database_path", PStr (abspath E SQLITE_DB_PATH));
            ("setup_instructions",
             PStr "Run 'python create_sample_db.py' to recreate the database") ],
      EvPathExists SQLITE_DB_PATH :: t))
  /\ (check_database_exists E (h ++ [EvPathExists SQLITE_DB_PATH])%list
      = (Ret true, t) ->
      (forall msg,
          connect E h1 SQLITE_DB_PATH = Some (SqliteError msg) ->
          database_status E h
          = (Ret (error_status msg),
             (EvPathExists SQLITE_DB_PATH
              :: t ++ [EvConnectFailed SQLITE_DB_PATH])%list))
      /\ (forall msg,
            connect E h1 SQLITE_DB_PATH = None ->
            execute E (h1 ++ [EvConnect SQLITE_DB_PATH c])%list COUNT_SQL
            = inl (SqliteError msg) ->
            database_status E h
            = (Ret (error_status msg),
               (EvPathExists SQLITE_DB_PATH
                :: t ++ [ EvConnect SQLITE_DB_PATH c;
                          EvExecute c COUNT_SQL ])%list))
      /\ (forall msg,
            connect E h1 SQLITE_DB_PATH = Some (OtherException msg)
            \/ (connect E h1 SQLITE_DB_PATH = None
                /\ execute E (h1 ++ [EvConnect SQLITE_DB_PATH c])%list
                     COUNT_SQL
                   = inl (OtherException msg)) ->
            fst (database_status E h) = Raise (OtherException msg))).
Proof.
  intros h1 c error_status Hp. subst h1 c error_status.
  assert (Hrun : forall k : M pydict,
             bind (os_path_exists E SQLITE_DB_PATH)
               (fun present =>
                  if negb present
                  then ret [ ("status", PStr "missing");
                             ("message", PStr "Database file does not exist");
                             ("database_path",
                              PStr (abspath E SQLITE_DB_PATH));
                             ("setup_instructions",
                              PStr "Run 'python create_sample_db.py' to create the database with sample data") ]
                  else k) h
             = (let (o, t2) := k (h ++ [EvPathExists SQLITE_DB_PATH])%list in
                (o, EvPathExists SQLITE_DB_PATH :: t2))).
  { intros k. unfold bind, os_path_exists. rewrite Hp. reflexivity. }
  unfold database_status.
  split.
  - intros Hcheck. rewrite Hrun, (bind_ret _ _ _ _ _ Hcheck). cbn.
    rewrite ?app_nil_r. reflexivity.
  - intros Hcheck.
    split; [|split].
    + intros msg Hc. rewrite Hrun, (bind_ret _ _ _ _ _ Hcheck). cbn [negb].
      unfold fetchone_index0, sqlite3_connect, conn_execute, conn_close,
        attempt, bind, ret, raise.
      rewrite Hc. cbn. rewrite ?app_nil_r. reflexivity.
    + intros msg Hc Hx. rewrite Hrun, (bind_ret _ _ _ _ _ Hcheck). cbn [negb].
      unfold fetchone_index0, sqlite3_connect, conn_execute, conn_close,
        attempt, bind, ret, raise.
      rewrite Hc. cbn [app]. rewrite Hx. cbn.
      rewrite ?app_nil_r. reflexivity.
    + intros msg Hor. rewrite Hrun, (bind_ret _ _ _ _ _ Hcheck). cbn [negb].
      unfold fetchone_index0, sqlite3_connect, conn_execute, conn_close,
        attempt, bind, ret, raise.
      destruct Hor as [Hc | [Hc Hx]]; rewrite Hc; cbn [app];
        [|rewrite Hx]; reflexivity.
Qed.

Lemma database_status_not_ready_witness :
  database_status rt_no_table []
  = (Ret [ ("status", PStr "invalid");
           ("message",
            PStr "Database exists but gold_price table is missing");
           ("database_path", PStr SQLITE_DB_PATH);
           ("setup_instructions",
            PStr "Run 'python create_sample_db.py' to recreate the database") ],
     [ EvPathExists SQLITE_DB_PATH; EvPathExists SQLITE_DB_PATH;
       EvConnect SQLITE_DB_PATH 2%nat; EvExecute 2%nat CATALOG_SQL;
       EvClose 2%nat ])
  /\ database_status rt_vanishing []
     = (Ret [ ("status", PStr "invalid");
              ("message",
               PStr "Database exists but gold_price table is missing");
              ("database_path", PStr SQLITE_DB_PATH);
              ("setup_instructions",
               PStr "Run 'python create_sample_db.py' to recreate the database") ],
        [EvPathExists SQLITE_DB_PATH; EvPathExists SQLITE_DB_PATH]).
Proof.
  split.
  - apply (proj1 (database_status_not_ready rt_no_table []
                    [ EvPathExists SQLITE_DB_PATH;
                      EvConnect SQLITE_DB_PATH 2%nat;
                      EvExecute 2%nat CATALOG_SQL; EvClose 2%nat ]
                    eq_refl)).
    reflexivity.
  - apply (proj1 (database_status_not_ready rt_vanishing []
                    [EvPathExists SQLITE_DB_PATH] eq_refl)).
    reflexivity.
Defined.

Ltac bound_prefix n :=
  do 10 (destruct n as [|n];
         [cbn; decide_conn_ids; cbn; try lia|]);
  cbn; decide_conn_ids; cbn; try lia.

(** X16.  No tool ever holds two connections at once: after any number of
    the calls a tool makes, at most one connection it opened is still
    open. *)
Theorem tools_hold_at_most_one_connection
    (E : runtime) (sql : string) (days : Z) (h : history) (n : nat) :
  (List.length (still_open (firstn n (snd (run_query E sql h)))) <= 1)%nat
  /\ (List.length (still_open (firstn n (snd (get_table_info E h)))) <= 1)%nat
  /\ (List.length (still_open (firstn n (snd (get_price_range E days h))))
      <= 1)%nat
  /\ (List.length (still_open (firstn n (snd (database_status E h)))) <= 1)%nat.
Proof.
  assert (Hexec : forall q m,
             (List.length
                (still_open (firstn m (snd (execute_sql_query E q h))))
              <= 1)%nat).
  { intros q m. unfold_ops. destruct (is_safe_sql q);
      repeat (run_step; cbn [negb snd fst app]); cbn [negb snd fst app];
      bound_prefix m. }
  split; [apply Hexec|]. split; [|split].
  - unfold_ops.
    repeat (run_step; cbn [negb snd fst app]); cbn [negb snd fst app];
      split_row_lookup; cbn [negb snd fst app]; bound_prefix n.
  - unfold get_price_range. destruct ((days <? 1) || (days >? 365)).
    + destruct n; cbn; lia.
    + apply Hexec.
  - unfold_ops.
    repeat (run_step; cbn [negb snd fst app]); cbn [negb snd fst app];
      repeat match goal with
             | |- context [match ?r with [] => _ | _ :: _ => _ end] =>
                 destruct r as [|[? ?] ?]
             end; cbn [negb snd fst app]; bound_prefix n.
Qed.

(** ** Rows and mappings *)

Lemma distinct_columns_fresh (pre suf : sqlite_row) (k : string) (v : pyval) :
  distinct_columns (pre ++ (k, v) :: suf)%list = true ->
  forallb (fun kv => negb (equal_ignore_case k (fst kv))) pre = true.
Proof.
  induction pre as [|[k0 v0] pre IH]; simpl; [reflexivity|].
  intros H. apply andb_true_iff in H. destruct H as [Hall Hrest].
  rewrite forallb_app in Hall. apply andb_true_iff in Hall.
  destruct Hall as [_ Hall]. simpl in Hall.
  apply andb_true_iff in Hall. destruct Hall as [Hk _].
  rewrite Hk. simpl. apply IH. exact Hrest.
Qed.

Lemma row_getitem_fresh (pre suf : sqlite_row) (k : string) (v : pyval) :
  forallb (fun kv => negb (equal_ignore_case k (fst kv))) pre = true ->
  row_getitem (pre ++ (k, v) :: suf)%list k = Some v.
Proof.
  induction pre as [|[k0 v0] pre IH]; simpl.
  - intros _. rewrite equal_ignore_case_refl. reflexivity.
  - intros H. apply andb_true_iff in H. destruct H as [Hk Hrest].
    apply negb_true_iff in Hk. rewrite Hk. apply IH. exact Hrest.
Qed.

Lemma dict_set_fresh (pre : pydict) (k : string) (v : pyval) :
  forallb (fun kv => negb (equal_ignore_case k (fst kv))) pre = true ->
  dict_set pre k v = (pre ++ [(k, v)])%list.
Proof.
  induction pre as [|[k0 v0] pre IH]; simpl; [reflexivity|].
  intros H. apply andb_true_iff in H. destruct H as [Hk Hrest].
  apply negb_true_iff in Hk. unfold equal_ignore_case in Hk.
  apply orb_false_iff in Hk. destruct Hk as [Hk _]. rewrite Hk.
  rewrite (IH Hrest). reflexivity.
Qed.

Lemma dict_of_row_from (pre suf : sqlite_row) :
  distinct_columns (pre ++ suf)%list = true ->
  fold_left
    (fun d k => match row_getitem (pre ++ suf)%list k with
                | Some v => dict_set d k v
                | None => d
                end)
    (map fst suf) pre
  = (pre ++ suf)%list.
Proof.
  revert pre. induction suf as [|[k v] suf IH]; intros pre Hd; simpl.
  - symmetry. apply app_nil_r.
  - pose proof (distinct_columns_fresh pre suf k v Hd) as Hfresh.
    rewrite (row_getitem_fresh pre suf k v Hfresh).
    rewrite (dict_set_fresh pre k v Hfresh).
    replace (pre ++ (k, v) :: suf)%list with ((pre ++ [(k, v)]) ++ suf)%list
      by (rewrite <- app_assoc; reflexivity).
    apply IH. rewrite <- app_assoc. exact Hd.
Qed.

(** X17.  The row-to-mapping step keeps a row as it is when no column name
    matches an earlier one: the mapping has the row's column names and
    values, in column order; so a result set of such rows is returned
    unchanged. *)
Theorem dict_of_row_distinct_columns (rows : list sqlite_row) :
  forallb distinct_columns rows = true ->
  map dict_of_row rows = rows.
Proof.
  induction rows as [|row rows IH]; simpl; [reflexivity|].
  intros H. apply andb_true_iff in H. destruct H as [Hrow Hrows].
  rewrite (IH Hrows). f_equal.
  unfold dict_of_row. exact (dict_of_row_from [] row Hrow).
Qed.

Lemma dict_of_row_distinct_columns_witness :
  map dict_of_row sample_rows = sample_rows.
Proof.
  apply (dict_of_row_distinct_columns sample_rows). reflexivity.
Defined.

(** X18.  The only statements [get_price_range] submits are the catalogue
    lookup and the fixed text with a limit between 1 and 365: no other
    limit ever reaches the driver. *)
Theorem get_price_range_submits_bounded_limit
    (E : runtime) (days : Z) (h : history) (c : conn_id) (q : string) :
  In (EvExecute c q) (snd (get_price_range E days h)) ->
  q = CATALOG_SQL
  \/ (q = "SELECT * FROM gold_price ORDER BY date DESC LIMIT " ++ str_int days
      /\ 1 <= days <= 365).
Proof.
  unfold get_price_range.
  destruct (days <? 1) eqn:Hlo; [intros []|].
  destruct (days >? 365) eqn:Hhi; [intros []|].
  apply Z.ltb_ge in Hlo. rewrite Z.gtb_ltb in Hhi. apply Z.ltb_ge in Hhi.
  cbn [orb]. fold (range_sql days). generalize (range_sql days) as sql.
  intros sql. unfold_ops. destruct (is_safe_sql sql);
    repeat (run_step; cbn [negb snd fst app]); cbn;
    intros Hin;
    repeat match goal with
           | H : _ \/ _ |- _ => destruct H as [H | H]
           | H : False |- _ => destruct H
           | H : _ = EvExecute _ _ |- _ => inversion H; subst; clear H
           end;
    try discriminate; auto.
Qed.

Lemma get_price_range_submits_bounded_limit_witness :
  range_sql 7 = CATALOG_SQL
  \/ (range_sql 7
      = "SELECT * FROM gold_price ORDER BY date DESC LIMIT " ++ str_int 7
      /\ 1 <= 7 <= 365).
Proof.
  apply (get_price_range_submits_bounded_limit rt_ready 7 [] 4%nat).
  vm_compute. tauto.
Defined.
